(** * Transformer from scratch: the notebook's attention code, embedded

    The development follows the code cells of
    [transformer_from_scratch/transformer_from_scratch.ipynb]:
    [clone], [Encoder], [LayerNorm], [Sublayer], [Decoder], [forward_mask],
    [attention] and [MultiHeadAttention].

    Python raises exceptions, so every function lives in an error monad.
    Objects are attribute dictionaries; names that a function does not bind
    itself are looked up in the notebook's global namespace.  Float tensors
    are modelled over the real numbers: a tensor is a shape together with
    its entries in row-major order. *)

From Stdlib Require Import Reals Lra Lia ZArith List String.
From stdpp Require Import base option list gmap strings.

Local Open Scope string_scope.
Local Open Scope list_scope.

(** ** Exceptions and the error monad

    [NotModelled] is no Python exception: it marks a call that the
    embedding does not follow any further. *)

Inductive exn : Type :=
| NameError (name : string)
| AttributeError (cls attr : string)
| AssertionError
| ZeroDivisionError
| ValueError (msg : string)
| TypeError (msg : string)
| IndexError (msg : string)
| RuntimeError (msg : string)
| NotModelled (what : string).

Inductive result (A : Type) : Type :=
| Ok (a : A)
| Raise (e : exn).

Arguments Ok {A} a.
Arguments Raise {A} e.

#[global] Instance result_ret : MRet result := fun _ a => Ok a.
#[global] Instance result_bind : MBind result := fun _ _ f m =>
  match m with
  | Ok a => f a
  | Raise e => Raise e
  end.

Definition is_ok {A} (r : result A) : bool :=
  match r with Ok _ => true | Raise _ => false end.

(** ** Tensors *)

Record tensor (A : Type) : Type := mkTensor {
  shape : list nat;
  data : list A
}.

Arguments mkTensor {A} shape data.
Arguments shape {A} t.
Arguments data {A} t.

Definition numel (s : list nat) : nat := foldr Nat.mul 1%nat s.

(** A tensor is well formed when it stores one entry per index. *)
Definition wf {A} (t : tensor A) : Prop := length (data t) = numel (shape t).

(** Row-major position of a multi-index, and back. *)
Fixpoint ravel (s idx : list nat) : nat :=
  match s, idx with
  | _ :: s', i :: idx' => (i * numel s' + ravel s' idx')%nat
  | _, _ => 0%nat
  end.

Fixpoint unravel (s : list nat) (k : nat) : list nat :=
  match s with
  | [] => []
  | _ :: s' => (k / numel s')%nat :: unravel s' (k mod numel s')
  end.

Fixpoint in_bounds (s idx : list nat) : bool :=
  match s, idx with
  | [], [] => true
  | d :: s', i :: idx' => (i <? d)%nat && in_bounds s' idx'
  | _, _ => false
  end.

(** [t[i0, ..., ik]] for a full multi-index. *)
Definition tget {A} (t : tensor A) (idx : list nat) : option A :=
  if in_bounds (shape t) idx then data t !! ravel (shape t) idx else None.

(** [t.shape[-1]] *)
Definition last_dim {A} (t : tensor A) : result nat :=
  match last (shape t) with
  | Some d => Ok d
  | None => Raise (IndexError "tuple index out of range")
  end.

(** A dimension argument, possibly negative, resolved against [n] axes. *)
Definition norm_dim (n : nat) (d : Z) : result nat :=
  if (0 <=? d)%Z && (d <? Z.of_nat n)%Z then Ok (Z.to_nat d)
  else if (d <? 0)%Z && (- Z.of_nat n <=? d)%Z then Ok (Z.to_nat (d + Z.of_nat n))
  else Raise (IndexError "Dimension out of range").

Definition swap {A} (l : list A) (i j : nat) : list A :=
  match l !! i, l !! j with
  | Some x, Some y => <[j := x]> (<[i := y]> l)
  | _, _ => l
  end.

(** [t.transpose(d0, d1)]; the entries are stored in the order of the
    result, so [.contiguous()] has nothing left to do. *)
Definition transpose {A} (dflt : A) (t : tensor A) (d0 d1 : Z) : result (tensor A) :=
  i ← norm_dim (length (shape t)) d0;
  j ← norm_dim (length (shape t)) d1;
  let s' := swap (shape t) i j in
  Ok (mkTensor s'
        (map (fun k => nth (ravel (shape t) (swap (unravel s' k) i j)) (data t) dflt)
             (seq 0 (numel s')))).

Definition contiguous {A} (t : tensor A) : tensor A := t.

(** [t.view(d0, d1, ...)] with at most one [-1] entry. *)
Definition view_known (spec : list Z) : nat :=
  numel (map Z.to_nat (List.filter (fun d => (0 <=? d)%Z) spec)).

Definition view {A} (t : tensor A) (spec : list Z) : result (tensor A) :=
  let n := numel (shape t) in
  if existsb (fun d => (d <? -1)%Z) spec then
    Raise (RuntimeError "invalid shape dimension")
  else
    match length (List.filter (fun d => (d =? -1)%Z) spec) with
    | O =>
        if (view_known spec =? n)%nat
        then Ok (mkTensor (map Z.to_nat spec) (data t))
        else Raise (RuntimeError "shape is invalid for input size")
    | S O =>
        let p := view_known spec in
        if (p =? 0)%nat then
          Raise (RuntimeError "cannot infer the unspecified dimension")
        else if (n mod p =? 0)%nat then
          Ok (mkTensor
                (map (fun d => if (d =? -1)%Z then (n / p)%nat else Z.to_nat d) spec)
                (data t))
        else Raise (RuntimeError "shape is invalid for input size")
    | _ => Raise (RuntimeError "only one dimension can be inferred")
    end.

(** Broadcasting of two shapes, aligned at the last axis. *)
Fixpoint broadcast_rev (s1 s2 : list nat) : option (list nat) :=
  match s1, s2 with
  | [], _ => Some s2
  | _, [] => Some s1
  | d1 :: r1, d2 :: r2 =>
      r ← broadcast_rev r1 r2;
      if (d1 =? d2)%nat then Some (d1 :: r)
      else if (d1 =? 1)%nat then Some (d2 :: r)
      else if (d2 =? 1)%nat then Some (d1 :: r)
      else None
  end.

Definition broadcast_shapes (s1 s2 : list nat) : result (list nat) :=
  match broadcast_rev (rev s1) (rev s2) with
  | Some r => Ok (rev r)
  | None => Raise (RuntimeError "shapes cannot be broadcast")
  end.

(** The index of an operand of shape [s] that is read for index [idx] of
    the broadcast result. *)
Definition bidx (s idx : list nat) : list nat :=
  zip_with (fun d i => if (d =? 1)%nat then 0%nat else i) s
           (drop (length idx - length s) idx).

Definition expand_get {A} (dflt : A) (t : tensor A) (idx : list nat) : A :=
  nth (ravel (shape t) (bidx (shape t) idx)) (data t) dflt.

(** Elementwise binary operation with broadcasting. *)
Definition binop {A B C} (da : A) (db : B) (f : A -> B -> C)
    (a : tensor A) (b : tensor B) : result (tensor C) :=
  s ← broadcast_shapes (shape a) (shape b);
  Ok (mkTensor s
        (map (fun k => let idx := unravel s k in
                       f (expand_get da a idx) (expand_get db b idx))
             (seq 0 (numel s)))).

Definition tmap {A B} (f : A -> B) (t : tensor A) : tensor B :=
  mkTensor (shape t) (map f (data t)).

(** ** Float tensors *)

Definition rsum (l : list R) : R := foldr Rplus 0%R l.

(** Row [r] of the last axis, of width [d]. *)
Definition row_of {A} (d : nat) (l : list A) (r : nat) : list A :=
  take d (drop (r * d) l).

Definition width {A} (t : tensor A) : nat := default 1%nat (last (shape t)).

(** [torch.matmul]: a 1-D operand is promoted to a matrix and the added
    axis is dropped from the result; the batch axes broadcast. *)
Definition matmul (a b : tensor R) : result (tensor R) :=
  match shape a, shape b with
  | [], _ | _, [] =>
      Raise (RuntimeError "both arguments to matmul need to be at least 1D")
  | _, _ =>
      let va := (length (shape a) =? 1)%nat in
      let vb := (length (shape b) =? 1)%nat in
      let sa := if va then 1%nat :: shape a else shape a in
      let sb := if vb then shape b ++ [1%nat] else shape b in
      let ba := take (length sa - 2) sa in
      let bb := take (length sb - 2) sb in
      let n := nth (length sa - 2) sa 0%nat in
      let m := nth (length sa - 1) sa 0%nat in
      let m' := nth (length sb - 2) sb 0%nat in
      let p := nth (length sb - 1) sb 0%nat in
      if (m =? m')%nat then
        batch ← broadcast_shapes ba bb;
        let out := batch ++ [n; p] in
        let entry k :=
          let idx := unravel out k in
          let bi := take (length batch) idx in
          let i := nth (length batch) idx 0%nat in
          let j := nth (S (length batch)) idx 0%nat in
          rsum (map (fun l =>
                       (nth (ravel sa (bidx ba bi ++ [i; l])) (data a) 0
                        * nth (ravel sb (bidx bb bi ++ [l; j])) (data b) 0)%R)
                    (seq 0 m)) in
        Ok (mkTensor (batch ++ (if va then [] else [n]) ++ (if vb then [] else [p]))
                     (map entry (seq 0 (numel out))))
      else Raise (RuntimeError "mat1 and mat2 shapes cannot be multiplied")
  end.

Definition tadd := binop 0%R 0%R Rplus.
Definition tsub := binop 0%R 0%R Rminus.
Definition tmul := binop 0%R 0%R Rmult.
Definition tdiv := binop 0%R 0%R Rdiv.

(** [t / c] for a Python number [c] *)
Definition div_scalar (t : tensor R) (c : R) : tensor R :=
  tmap (fun v => (v / c)%R) t.

(** [mask == 0] *)
Definition mask_eq0 (mask : tensor bool) : tensor bool := tmap negb mask.

(** [x.masked_fill(m, v)]: [x] and [m] are broadcast against each other. *)
Definition masked_fill (x : tensor R) (m : tensor bool) (v : R) : result (tensor R) :=
  binop 0%R false (fun e (b : bool) => if b then v else e) x m.


(** [x.softmax(dim=-1)] *)
Definition softmax (x : tensor R) : tensor R :=
  let d := width x in
  mkTensor (shape x)
    (imap (fun k v => (exp v / rsum (map exp (row_of d (data x) (k / d))))%R) (data x)).

(** [x.mean(dim=-1, keepdim=True)] and [x.std(dim=-1, keepdim=True)], the
    latter with Bessel's correction as is torch's default. *)
Definition keepdim_shape (s : list nat) : list nat :=
  match s with
  | [] => []
  | _ => take (length s - 1) s ++ [1%nat]
  end.

Definition row_mean (row : list R) : R := (rsum row / INR (length row))%R.

Definition row_std (row : list R) : R :=
  sqrt (rsum (map (fun v => ((v - row_mean row) * (v - row_mean row))%R) row)
        / (INR (length row) - 1))%R.

Definition reduce_last (f : list R -> R) (x : tensor R) : tensor R :=
  let d := width x in
  let s := keepdim_shape (shape x) in
  mkTensor s (map (fun r => f (row_of d (data x) r)) (seq 0 (numel s))).

Definition tmean : tensor R -> tensor R := reduce_last row_mean.
Definition tstd : tensor R -> tensor R := reduce_last row_std.

(** Iterating a tensor walks its first axis; [a, b = t] needs exactly two
    slices. *)
Definition unpack2 {A} (t : tensor A) : result (tensor A * tensor A) :=
  match shape t with
  | [] => Raise (TypeError "iteration over a 0-d tensor")
  | n :: s =>
      if (n =? 2)%nat then
        Ok (mkTensor s (take (numel s) (data t)),
            mkTensor s (take (numel s) (drop (numel s) (data t))))
      else if (n <? 2)%nat then Raise (ValueError "not enough values to unpack (expected 2)")
      else Raise (ValueError "too many values to unpack (expected 2)")
  end.

(** [torch.ones(shape)], [torch.zeros(shape)] *)
Definition full {A} (v : A) (s : list nat) : tensor A :=
  mkTensor s (replicate (numel s) v).

(** [mask.unsqueeze(dim)]: a new tensor; the argument is left as it is. *)
Definition unsqueeze {A} (t : tensor A) (dim : Z) : result (tensor A) :=
  i ← norm_dim (S (length (shape t))) dim;
  Ok (mkTensor (take i (shape t) ++ 1%nat :: drop i (shape t)) (data t)).

(** ** Python values, objects and name spaces *)

#[warnings="-register-all"]
Inductive pyobj : Type :=
| VNone
| VBool (b : bool)
| VInt (z : Z)
| VFloat (r : R)
| VTensor (t : tensor R)
| VFun (f : tensor R -> result (tensor R))
| VList (items : list pyobj)
| VObject (cls : string) (attrs : gmap string pyobj)
| VOpaque (name : string).

(** The names bound at the top level once the notebook's cells have run:
    the imports, the hyperparameters, the functions and classes, and the
    scratch variable [a] of the last cells. *)
Definition notebook_globals : gmap string pyobj :=
  list_to_map
    [ ("torch", VOpaque "torch"); ("nn", VOpaque "torch.nn");
      ("math", VOpaque "math"); ("copy", VOpaque "copy"); ("time", VOpaque "time");
      ("pd", VOpaque "pandas"); ("alt", VOpaque "altair");
      ("D_MODEL", VInt 16); ("N", VInt 6);
      ("EncoderDecoder", VOpaque "EncoderDecoder"); ("Generator", VOpaque "Generator");
      ("clone", VOpaque "clone"); ("Encoder", VOpaque "Encoder");
      ("LayerNorm", VOpaque "LayerNorm"); ("Sublayer", VOpaque "Sublayer");
      ("EncoderLayer", VOpaque "EncoderLayer"); ("Decoder", VOpaque "Decoder");
      ("DecoderLayer", VOpaque "DecoderLayer");
      ("forward_mask", VOpaque "forward_mask");
      ("show_sample_mask", VOpaque "show_sample_mask");
      ("attention", VOpaque "attention");
      ("MultiHeadAttention", VOpaque "MultiHeadAttention");
      ("a", VTensor (mkTensor [5; 5]%nat (map INR (seq 0 25)))) ].

Definition builtins : list string :=
  [ "abs"; "all"; "any"; "ascii"; "bin"; "bool"; "breakpoint"; "bytearray";
    "bytes"; "callable"; "chr"; "classmethod"; "compile"; "complex"; "delattr";
    "dict"; "dir"; "divmod"; "enumerate"; "eval"; "exec"; "filter"; "float";
    "format"; "frozenset"; "getattr"; "globals"; "hasattr"; "hash"; "help";
    "hex"; "id"; "input"; "int"; "isinstance"; "issubclass"; "iter"; "len";
    "list"; "locals"; "map"; "max"; "memoryview"; "min"; "next"; "object";
    "oct"; "open"; "ord"; "pow"; "print"; "property"; "range"; "repr";
    "reversed"; "round"; "set"; "setattr"; "slice"; "sorted"; "staticmethod";
    "str"; "sum"; "super"; "tuple"; "type"; "vars"; "zip"; "__import__";
    "True"; "False"; "None"; "Ellipsis"; "NotImplemented"; "__name__" ].

(** A name that is not local: the globals first, then the builtins. *)
Definition load_global (name : string) : result pyobj :=
  match notebook_globals !! name with
  | Some v => Ok v
  | None =>
      if bool_decide (name ∈ builtins) then Ok (VOpaque name)
      else Raise (NameError name)
  end.

(** What every [nn.Module] offers besides the attributes of the instance. *)
Definition nn_Module_members : list string :=
  [ "forward"; "__init__"; "__call__"; "add_module"; "apply"; "bfloat16";
    "buffers"; "children"; "cpu"; "cuda"; "double"; "dump_patches"; "eval";
    "extra_repr"; "float"; "get_buffer"; "get_extra_state"; "get_parameter";
    "get_submodule"; "half"; "ipu"; "load_state_dict"; "modules";
    "named_buffers"; "named_children"; "named_modules"; "named_parameters";
    "parameters"; "register_backward_hook"; "register_buffer";
    "register_forward_hook"; "register_forward_pre_hook";
    "register_full_backward_hook"; "register_load_state_dict_post_hook";
    "register_module"; "register_parameter"; "requires_grad_";
    "set_extra_state"; "share_memory"; "state_dict"; "to"; "to_empty";
    "train"; "type"; "xpu"; "zero_grad"; "T_destination" ].

(** [obj.name] *)
Definition getattr (obj : pyobj) (name : string) : result pyobj :=
  match obj with
  | VObject cls attrs =>
      match attrs !! name with
      | Some v => Ok v
      | None =>
          if bool_decide (name ∈ nn_Module_members) then Ok (VOpaque (cls ++ "." ++ name))
          else Raise (AttributeError cls name)
      end
  | VOpaque m => Ok (VOpaque (m ++ "." ++ name))
  | _ => Raise (AttributeError "object" name)
  end.

(** [obj.name = v] *)
Definition setattr (obj : pyobj) (name : string) (v : pyobj) : pyobj :=
  match obj with
  | VObject cls attrs => VObject cls (<[name := v]> attrs)
  | _ => obj
  end.

(** [super().__init__()] of an [nn.Module] *)
Definition Module_init (cls : string) : pyobj :=
  VObject cls {[ "training" := VBool true ]}.

Definition as_tensor (v : pyobj) : result (tensor R) :=
  match v with
  | VTensor t => Ok t
  | _ => Raise (TypeError "expected a tensor")
  end.

Definition as_int (v : pyobj) : result Z :=
  match v with
  | VInt z => Ok z
  | VBool b => Ok (Z.b2z b)
  | _ => Raise (TypeError "expected an integer")
  end.

Definition as_float (v : pyobj) : result R :=
  match v with
  | VFloat r => Ok r
  | VInt z => Ok (IZR z)
  | VBool b => Ok (IZR (Z.b2z b))
  | _ => Raise (TypeError "must be real number")
  end.

Definition as_bool (v : pyobj) : result bool :=
  match v with
  | VBool b => Ok b
  | _ => Raise (TypeError "expected a bool")
  end.

(** Iterating a list, as [for], [zip] and unpacking do. *)
Definition iter (v : pyobj) : result (list pyobj) :=
  match v with
  | VList l => Ok l
  | _ => Raise (TypeError "object is not iterable")
  end.

(** [tensor + v] for a Python value [v] *)
Definition add_value (t : tensor R) (v : pyobj) : result (tensor R) :=
  match v with
  | VTensor u => tadd t u
  | VFloat r => Ok (tmap (fun e => (e + r)%R) t)
  | VInt z => Ok (tmap (fun e => (e + IZR z)%R) t)
  | VBool b => Ok (tmap (fun e => (e + IZR (Z.b2z b))%R) t)
  | _ => Raise (TypeError "unsupported operand type(s) for +")
  end.

Fixpoint mapM {A B} (f : A -> result B) (l : list A) : result (list B) :=
  match l with
  | [] => Ok []
  | a :: l' => b ← f a; bs ← mapM f l'; Ok (b :: bs)
  end.

(** ** The library modules the notebook instantiates *)

(** [nn.Dropout(p)] *)
Definition Dropout_init (p : R) : result pyobj :=
  if Rlt_dec p 0 then Raise (ValueError "dropout probability has to be between 0 and 1")
  else if Rlt_dec 1 p then Raise (ValueError "dropout probability has to be between 0 and 1")
  else Ok (setattr (setattr (Module_init "Dropout") "p" (VFloat p)) "inplace" (VBool false)).

(** In training mode entry [k] is kept, and scaled by [1/(1-p)], when the
    [k]-th uniform draw falls below [1-p]; otherwise it is zeroed.  The
    draws of one call are the stream [draw]. *)
Definition dropout (p : R) (training : bool) (draw : nat -> R) (x : tensor R) : tensor R :=
  if training then
    mkTensor (shape x)
      (imap (fun k v => if Rlt_dec (draw k) (1 - p) then (v / (1 - p))%R else 0%R) (data x))
  else x.

Definition Dropout_forward (draw : nat -> R) (self : pyobj) (x : tensor R) : result (tensor R) :=
  p ← getattr self "p" ≫= as_float;
  training ← getattr self "training" ≫= as_bool;
  Ok (dropout p training draw x).

(** [torch.ones(dims)] and [torch.zeros(dims)] for Python integers. *)
Definition filled (v : R) (dims : list Z) : result (tensor R) :=
  if forallb (fun d => (0 <=? d)%Z) dims then Ok (full v (map Z.to_nat dims))
  else Raise (RuntimeError "Trying to create tensor with negative dimension").

Definition ones := filled 1%R.
Definition zeros := filled 0%R.

(** [nn.Linear(in_features, out_features)]; the initial weight
    ([out_features] by [in_features]) and bias are whatever the
    initialiser drew. *)
Definition Linear_init (in_features out_features : Z) (weight bias : tensor R) : result pyobj :=
  if (in_features <? 0)%Z || (out_features <? 0)%Z then
    Raise (RuntimeError "Trying to create tensor with negative dimension")
  else
    Ok (setattr (setattr (setattr (setattr (Module_init "Linear")
      "in_features" (VInt in_features)) "out_features" (VInt out_features))
      "weight" (VTensor weight)) "bias" (VTensor bias)).

Definition Linear_forward (self : pyobj) (x : tensor R) : result (tensor R) :=
  weight ← getattr self "weight" ≫= as_tensor;
  bias ← getattr self "bias" ≫= as_tensor;
  wt ← transpose 0%R weight 0 1;
  y ← matmul x wt;
  tadd y bias.

(** ** The notebook *)

(** *** [LayerNorm] *)

Definition LayerNorm_eps_default : R := 1e-6%R.

Definition LayerNorm_init (features : Z) (eps : R) : result pyobj :=
  let self := Module_init "LayerNorm" in
  let self := setattr self "eps" (VFloat eps) in
  gamma ← ones [features];
  let self := setattr self "gamma" (VTensor gamma) in
  beta ← zeros [features];
  Ok (setattr self "beta" (VTensor beta)).

Definition LayerNorm_forward (self : pyobj) (x : tensor R) : result (tensor R) :=
  let std := tstd x in
  let mean := tmean x in
  gamma ← getattr self "gamma" ≫= as_tensor;
  centred ← tsub x mean;
  scaled ← tmul gamma centred;
  eps ← load_global "eps";
  denom ← add_value std eps;
  quotient ← tdiv scaled denom;
  beta ← getattr self "beta" ≫= as_tensor;
  tadd quotient beta.

(** [module(x)] for the callables the notebook applies to one tensor. *)
Definition call (draw : nat -> R) (f : pyobj) (x : tensor R) : result (tensor R) :=
  match f with
  | VFun g => g x
  | VObject cls _ =>
      if String.eqb cls "LayerNorm" then LayerNorm_forward f x
      else if String.eqb cls "Dropout" then Dropout_forward draw f x
      else if String.eqb cls "Linear" then Linear_forward f x
      else Raise (NotModelled ("forward of " ++ cls))
  | VOpaque name => Raise (NotModelled ("call of " ++ name))
  | _ => Raise (TypeError "object is not callable")
  end.

(** *** [clone] *)

Definition isinstance (v cls : pyobj) : result bool :=
  match cls with
  | VOpaque name =>
      if String.eqb name "numbers.Integral"
      then Ok (match v with VInt _ | VBool _ => true | _ => false end)
      else Raise (NotModelled ("isinstance against " ++ name))
  | _ => Raise (TypeError "isinstance() arg 2 must be a type")
  end.

Definition deepcopy (v : pyobj) : pyobj := v.

Definition clone (module_to_clone : pyobj) (num_of_clones : pyobj) : result pyobj :=
  numbers ← load_global "numbers";
  Integral ← getattr numbers "Integral";
  ok ← isinstance num_of_clones Integral;
  if ok : bool then
    n ← as_int num_of_clones;
    Ok (VList (map (fun _ => deepcopy module_to_clone) (seq 0 (Z.to_nat n))))
  else Raise AssertionError.

(** *** [Encoder] and [Decoder] *)

Definition Encoder_init (encoder_layer : pyobj) (N : pyobj) : result pyobj :=
  let self := Module_init "Encoder" in
  stack ← clone encoder_layer N;
  Ok (setattr self "encoder_stack" stack).

Definition Encoder_forward (draw : nat -> R) (self : pyobj) (x : tensor R) : result (tensor R) :=
  encoder_stack ← load_global "encoder_stack" ≫= iter;
  foldl (fun acc encoder => x ← acc; call draw encoder x) (Ok x) encoder_stack.

Definition Decoder_init (decoder_layer : pyobj) (N : pyobj) : result pyobj :=
  let self := Module_init "Decoder" in
  stack ← clone decoder_layer N;
  Ok (setattr self "decoder_stack" stack).

Definition Decoder_forward (draw : nat -> R) (self : pyobj) (x : tensor R) : result (tensor R) :=
  decoder_stack ← load_global "decoder_stack" ≫= iter;
  foldl (fun acc decoder => x ← acc; call draw decoder x) (Ok x) decoder_stack.

(** *** [Sublayer] *)

Definition Sublayer_init (size : Z) (dropout : R) : result pyobj :=
  let self := Module_init "Sublayer" in
  layernorm ← LayerNorm_init size LayerNorm_eps_default;
  let self := setattr self "layernorm" layernorm in
  drop ← Dropout_init dropout;
  Ok (setattr self "dropout" drop).

Definition Sublayer_forward (draw : nat -> R) (self : pyobj) (x : tensor R)
    (sublayer_protagonist : pyobj) : result (tensor R) :=
  drop ← getattr self "dropout";
  norm ← getattr self "norm";
  normed ← call draw norm x;
  y ← call draw sublayer_protagonist normed;
  dropped ← call draw drop y;
  tadd x dropped.

(** *** [forward_mask] *)

(** [torch.triu(t, diagonal)]: on the last two axes, entry (i, j) is kept
    when [j - i >= diagonal] and zeroed otherwise. *)
Definition triu (t : tensor R) (diagonal : Z) : result (tensor R) :=
  match rev (shape t) with
  | cols :: rows :: _ =>
      Ok (mkTensor (shape t)
            (imap (fun k v =>
                     let j := (k mod cols)%nat in
                     let i := ((k / cols) mod rows)%nat in
                     if (diagonal <=? Z.of_nat j - Z.of_nat i)%Z then v else 0%R)
                  (data t)))
  | _ => Raise (RuntimeError "triu: input tensor must have at least 2 dimensions")
  end.

(** [.type(torch.uint8)]: the fraction is cut off and the integer wraps. *)
Definition trunc (r : R) : Z :=
  if Rle_dec 0 r then Int_part r else (- Int_part (- r))%Z.

Definition to_uint8 (t : tensor R) : tensor Z :=
  tmap (fun v => (trunc v mod 256)%Z) t.

Definition forward_mask (size : Z) : result (tensor bool) :=
  let attn_shape := [1%Z; size; size] in
  o ← ones attn_shape;
  upper ← triu o 1;
  let mask := to_uint8 upper in
  Ok (tmap (fun v => (v =? 0)%Z) mask).

(** *** [attention] *)

Definition mask_fill_value : R := 1e-9%R.

(** The first statements of [attention], up to the scaled scores. *)
Definition attention_scores (query key : tensor R) : result (tensor R) :=
  d_k ← last_dim query;
  kt ← transpose 0%R key (-2) (-1);
  qk ← matmul query kt;
  Ok (div_scalar qk (sqrt (INR d_k))).

(** ... up to the softmax: the attention weights. *)
Definition attention_weights (query key : tensor R) (mask : option (tensor bool))
  : result (tensor R) :=
  x ← attention_scores query key;
  x ← match mask with
      | Some m => masked_fill x (mask_eq0 m) mask_fill_value
      | None => Ok x
      end;
  Ok (softmax x).

(** The whole function; its one return value is [scaled_attention]. *)
Definition attention (draw : nat -> R) (query key value : tensor R)
    (mask : option (tensor bool)) (dropout : option pyobj) : result (tensor R) :=
  x ← attention_weights query key mask;
  x ← match dropout with
      | Some d => call draw d x
      | None => Ok x
      end;
  matmul x value.

(** *** [MultiHeadAttention] *)

Definition py_mod (a b : Z) : result Z :=
  if (b =? 0)%Z then Raise ZeroDivisionError else Ok (a mod b)%Z.

Definition py_floordiv (a b : Z) : result Z :=
  if (b =? 0)%Z then Raise ZeroDivisionError else Ok (a / b)%Z.

Definition MultiHeadAttention_dropout_default : R := 0.1%R.

Definition MultiHeadAttention_init (h d_model : Z) (dropout : R)
    (weight bias : tensor R) : result pyobj :=
  let self := Module_init "MultiHeadAttention" in
  r ← py_mod d_model h;
  if negb (r =? 0)%Z then Raise AssertionError else
  d_k ← py_floordiv d_model h;
  let self := setattr self "d_k" (VInt d_k) in
  let self := setattr self "h" (VInt h) in
  lin ← Linear_init d_model d_model weight bias;
  linears ← clone lin (VInt 4);
  let self := setattr self "linears" linears in
  let self := setattr self "attn" VNone in
  drop ← Dropout_init dropout;
  Ok (setattr self "dropout" drop).

(** [query.shape[0]] *)
Definition first_dim {A} (t : tensor A) : result nat :=
  match shape t with
  | n :: _ => Ok n
  | [] => Raise (IndexError "tuple index out of range")
  end.

(** [l[-1]] *)
Definition last_item (l : list pyobj) : result pyobj :=
  match last l with
  | Some v => Ok v
  | None => Raise (IndexError "index out of range")
  end.

(** Step 1 and 2 of [forward]: the projections, the split into heads, the
    attention, and the unpacking of what [attention] returned. *)
Definition MultiHeadAttention_heads (draw : nat -> R) (self : pyobj)
    (query key value : tensor R) (mask : option (tensor bool))
  : result (nat * tensor R * tensor R) :=
  _ ← match mask with
      | Some m => _ ← unsqueeze m 1; Ok tt
      | None => Ok tt
      end;
  num_batches ← first_dim query;
  linears ← getattr self "linears" ≫= iter;
  projected ← mapM (fun '(lin, x) =>
                      y ← call draw lin x;
                      h ← getattr self "h" ≫= as_int;
                      d_k ← getattr self "d_k" ≫= as_int;
                      v ← view y [Z.of_nat num_batches; (-1)%Z; h; d_k];
                      transpose 0%R v 1 2)
                   (zip linears [query; key; value]);
  match projected with
  | [query; key; value] =>
      drop ← getattr self "dropout";
      out ← attention draw query key value mask (Some drop);
      '(x, attn) ← unpack2 out;
      Ok (num_batches, x, attn)
  | _ => Raise (ValueError "not enough values to unpack (expected 3)")
  end.

(** Step 3: the heads are put side by side again and sent through the
    last linear layer. *)
Definition MultiHeadAttention_concat (draw : nat -> R) (self : pyobj)
    (num_batches : nat) (x : tensor R) : result (tensor R) :=
  xt ← transpose 0%R x 1 2;
  h ← getattr self "h" ≫= as_int;
  d_k ← getattr self "d_k" ≫= as_int;
  x ← view (contiguous xt) [Z.of_nat num_batches; (-1)%Z; (h * d_k)%Z];
  linears ← getattr self "linears" ≫= iter;
  final ← last_item linears;
  call draw final x.

(** [forward] returns the object as the call leaves it, [self.attn]
    included, next to the result. *)
Definition MultiHeadAttention_forward (draw : nat -> R) (self : pyobj)
    (query key value : tensor R) (mask : option (tensor bool))
  : pyobj * result (tensor R) :=
  match MultiHeadAttention_heads draw self query key value mask with
  | Raise e => (self, Raise e)
  | Ok (num_batches, x, attn) =>
      let self := setattr self "attn" (VTensor attn) in
      (self, MultiHeadAttention_concat draw self num_batches x)
  end.

(** *** Instances for the examples *)

(** The object that [__init__] would leave behind, attribute by attribute
    in its order of assignment, had [clone] returned the four linear
    layers. *)
Definition MultiHeadAttention_object (h d_k : Z) (linears : list pyobj)
    (attn drop : pyobj) : pyobj :=
  setattr (setattr (setattr (setattr (setattr (Module_init "MultiHeadAttention")
    "d_k" (VInt d_k)) "h" (VInt h)) "linears" (VList linears)) "attn" attn)
    "dropout" drop.

(** The same for [h] heads of width [d_k], with [clone]'s four copies of
    one linear layer. *)
Definition MultiHeadAttention_built (h d_k : nat) (lin attn drop : pyobj) : pyobj :=
  MultiHeadAttention_object (Z.of_nat h) (Z.of_nat d_k) [lin; lin; lin; lin] attn drop.

(** [nn.Linear(1, 1)] with weight 1 and bias 0, and [nn.Dropout(0.1)]. *)
Definition unit_Linear : pyobj :=
  VObject "Linear"
    (<["bias" := VTensor (mkTensor [1%nat] [0%R])]>
       (<["weight" := VTensor (mkTensor [1; 1]%nat [1%R])]>
          (<["out_features" := VInt 1]>
             (<["in_features" := VInt 1]> {[ "training" := VBool true ]})))).

Definition Dropout_object (p : R) (training : bool) : pyobj :=
  VObject "Dropout"
    (<["inplace" := VBool false]> (<["p" := VFloat p]> {[ "training" := VBool training ]})).

(** ** Randomness and repeated calls *)

(** The uniform draws of two calls. *)
Definition unit_draws (draw : nat -> R) : Prop :=
  forall k, (0 <= draw k < 1)%R.

(** An [nn.Dropout] module whose probability is zero. *)
Definition dropout_off (drop : pyobj) : Prop :=
  exists attrs, drop = VObject "Dropout" attrs /\ attrs !! "p" = Some (VFloat 0).

Definition is_Linear (v : pyobj) : Prop :=
  exists attrs, v = VObject "Linear" attrs.

(** Two objects that differ at most in [attn]. *)
Definition agree (self self' : pyobj) : Prop :=
  forall name, name <> "attn" -> getattr self name = getattr self' name.

(** ** The notebook's other constructors *)

(** *** [Generator] *)

(** [nn.LogSoftmax(dim)] and its [forward] along the last axis. *)
Definition LogSoftmax_init (dim : Z) : pyobj :=
  setattr (Module_init "LogSoftmax") "dim" (VInt dim).

Definition log_softmax (x : tensor R) : tensor R :=
  let d := width x in
  mkTensor (shape x)
    (imap (fun k v => (v - ln (rsum (map exp (row_of d (data x) (k / d)))))%R) (data x)).

Definition LogSoftmax_forward (self : pyobj) (x : tensor R) : result (tensor R) :=
  dim ← getattr self "dim" ≫= as_int;
  axis ← norm_dim (length (shape x)) dim;
  if (S axis =? length (shape x))%nat then Ok (log_softmax x)
  else Raise (NotModelled "log_softmax along an inner axis").

(** [module(x)], with [nn.LogSoftmax] among the modules. *)
Definition call_module (draw : nat -> R) (f : pyobj) (x : tensor R) : result (tensor R) :=
  match f with
  | VObject cls _ =>
      if String.eqb cls "LogSoftmax" then LogSoftmax_forward f x else call draw f x
  | _ => call draw f x
  end.

Definition Generator_init (model_dims vocab_size : Z) (weight bias : tensor R) : result pyobj :=
  let self := Module_init "Generator" in
  linear ← Linear_init model_dims vocab_size weight bias;
  let self := setattr self "linear" linear in
  Ok (setattr self "softmax" (LogSoftmax_init (-1))).

Definition Generator_forward (draw : nat -> R) (self : pyobj) (x : tensor R) : result (tensor R) :=
  softmax ← getattr self "softmax";
  layer ← getattr self "layer";
  y ← call_module draw layer x;
  call_module draw softmax y.

(** *** [EncoderLayer.__init__] and [DecoderLayer.__init__] *)

Definition EncoderLayer_init (size : Z) (multihead_self_attention feed_forward : pyobj)
    (dropout : R) : result pyobj :=
  let self := Module_init "EncoderLayer" in
  let self := setattr self "attention" multihead_self_attention in
  let self := setattr self "feed_forward" feed_forward in
  sublayer ← Sublayer_init size dropout;
  sublayers ← clone sublayer (VInt 2);
  let self := setattr self "sublayers" sublayers in
  Ok (setattr self "size" (VInt size)).

Definition DecoderLayer_init (size : Z)
    (masked_multi_head_attention multi_head_attention feed_forward : pyobj)
    (dropout : R) : result pyobj :=
  let self := Module_init "DecoderLayer" in
  let self := setattr self "masked_attention" masked_multi_head_attention in
  let self := setattr self "attention" multi_head_attention in
  let self := setattr self "feed_forward" feed_forward in
  sublayer ← Sublayer_init size dropout;
  sublayers ← clone sublayer (VInt 3);
  Ok (setattr self "sublayers" sublayers).

(** ** Arguments that fit *)

(** An optional mask for n queries and m keys, and an optional dropout
    module as [nn.Dropout] builds it. *)
Definition mask_fits (mask : option (tensor bool)) (n m : nat) : Prop :=
  forall mk, mask = Some mk -> shape mk = [n; m].

Definition dropout_fits (dropout : option pyobj) : Prop :=
  forall drop, dropout = Some drop -> exists p, Dropout_init p = Ok drop.

(** * Properties *)

(** ** Name resolution *)

Lemma load_global_unbound (name : string) :
  notebook_globals !! name = None ->
  bool_decide (name ∈ builtins) = false ->
  load_global name = Raise (NameError name).
Proof. intros Hg Hb. unfold load_global. now rewrite Hg, Hb. Qed.

Lemma numbers_unbound : load_global "numbers" = Raise (NameError "numbers").
Proof. apply load_global_unbound; vm_compute; reflexivity. Qed.

Lemma eps_unbound : load_global "eps" = Raise (NameError "eps").
Proof. apply load_global_unbound; vm_compute; reflexivity. Qed.

Lemma encoder_stack_unbound :
  load_global "encoder_stack" = Raise (NameError "encoder_stack").
Proof. apply load_global_unbound; vm_compute; reflexivity. Qed.

Lemma decoder_stack_unbound :
  load_global "decoder_stack" = Raise (NameError "decoder_stack").
Proof. apply load_global_unbound; vm_compute; reflexivity. Qed.

(** The hyperparameters, by contrast, resolve. *)
Lemma D_MODEL_bound : load_global "D_MODEL" = Ok (VInt 16).
Proof. vm_compute. reflexivity. Qed.

Lemma getattr_setattr (cls : string) (attrs : gmap string pyobj) (k k' : string) (v : pyobj) :
  getattr (VObject cls (<[k := v]> attrs)) k'
  = if decide (k = k') then Ok v else getattr (VObject cls attrs) k'.
Proof.
  cbn [getattr]. rewrite lookup_insert. case_decide; reflexivity.
Qed.

Lemma getattr_missing (cls : string) (attrs : gmap string pyobj) (name : string) :
  attrs !! name = None ->
  bool_decide (name ∈ nn_Module_members) = false ->
  getattr (VObject cls attrs) name = Raise (AttributeError cls name).
Proof. intros Ha Hm. simpl. now rewrite Ha, Hm. Qed.

(** ** [clone] and the stacks *)

Lemma clone_raises (module_to_clone num_of_clones : pyobj) :
  clone module_to_clone num_of_clones = Raise (NameError "numbers").
Proof. unfold clone. now rewrite numbers_unbound. Qed.

Lemma Encoder_forward_raises (draw : nat -> R) (self : pyobj) (x : tensor R) :
  Encoder_forward draw self x = Raise (NameError "encoder_stack").
Proof. unfold Encoder_forward. now rewrite encoder_stack_unbound. Qed.

Lemma Decoder_forward_raises (draw : nat -> R) (self : pyobj) (x : tensor R) :
  Decoder_forward draw self x = Raise (NameError "decoder_stack").
Proof. unfold Decoder_forward. now rewrite decoder_stack_unbound. Qed.

(** The stack with no layer at all: the input does not come back. *)
Example Encoder_empty_stack_not_identity :
  let self := setattr (Module_init "Encoder") "encoder_stack" (VList []) in
  let x := mkTensor [2%nat] [1%R; 2%R] in
  Encoder_forward (fun _ => 0%R) self x <> Ok x.
Proof. intros self x. now rewrite Encoder_forward_raises. Qed.

(** C8. The claim: a stack of N layers is their composition in order, the
    identity for N = 0.  The code: [Encoder.forward] and [Decoder.forward]
    iterate over the bare names [encoder_stack] and [decoder_stack], which
    nothing binds, so every call raises [NameError] whatever the stack and
    the input are; and the constructors stop in [clone], which reads the
    module [numbers] that was never imported. *)
Theorem stacks_raise_NameError (draw : nat -> R) (self layer N : pyobj) (x : tensor R) :
  Encoder_forward draw self x = Raise (NameError "encoder_stack")
  /\ Decoder_forward draw self x = Raise (NameError "decoder_stack")
  /\ Encoder_init layer N = Raise (NameError "numbers")
  /\ Decoder_init layer N = Raise (NameError "numbers").
Proof.
  split; [apply Encoder_forward_raises|].
  split; [apply Decoder_forward_raises|].
  split.
  - unfold Encoder_init. now rewrite clone_raises.
  - unfold Decoder_init. now rewrite clone_raises.
Qed.

(** ** [MultiHeadAttention.__init__] *)

Example MultiHeadAttention_init_8_16 (weight bias : tensor R) :
  MultiHeadAttention_init 8 16 MultiHeadAttention_dropout_default weight bias
  = Raise (NameError "numbers").
Proof.
  unfold MultiHeadAttention_init, py_mod, py_floordiv, Linear_init.
  cbn [Z.eqb Z.modulo Z.ltb orb negb mbind result_bind].
  change ((16 mod 8 =? 0)%Z) with true. cbn [negb].
  change ((16 <? 0)%Z) with false. cbn [orb mbind result_bind].
  rewrite clone_raises. reflexivity.
Qed.

(** C7. The claim: construction fails exactly when [d_model % h != 0].
    The code: the assertion is there, but a construction that passes it
    goes on to [clone], which raises [NameError]; no choice of [h] and
    [d_model] yields an instance. *)
Theorem MultiHeadAttention_init_outcome (h d_model : Z) (dropout : R) (weight bias : tensor R) :
  MultiHeadAttention_init h d_model dropout weight bias
  = if (h =? 0)%Z then Raise ZeroDivisionError
    else if negb (d_model mod h =? 0)%Z then Raise AssertionError
    else if (d_model <? 0)%Z
         then Raise (RuntimeError "Trying to create tensor with negative dimension")
         else Raise (NameError "numbers").
Proof.
  unfold MultiHeadAttention_init, py_mod, py_floordiv, Linear_init.
  destruct (h =? 0)%Z; [reflexivity|]. cbn [mbind result_bind].
  destruct (d_model mod h =? 0)%Z; [|reflexivity]. cbn [negb mbind result_bind].
  destruct (d_model <? 0)%Z; [reflexivity|]. cbn [orb mbind result_bind].
  rewrite clone_raises. reflexivity.
Qed.

(** ** Broadcasting *)

Lemma broadcast_rev_diag (s : list nat) : broadcast_rev s s = Some s.
Proof.
  induction s as [|d s IH]; [reflexivity|].
  cbn [broadcast_rev]. rewrite IH. cbn [mbind option_bind].
  now rewrite Nat.eqb_refl.
Qed.

Lemma last_snoc_inv (s : list nat) (d : nat) :
  last s = Some d -> exists s0, s = s0 ++ [d].
Proof. intros H. apply last_Some in H. exact H. Qed.

Lemma keepdim_shape_snoc (s0 : list nat) (d : nat) :
  keepdim_shape (s0 ++ [d]) = s0 ++ [1%nat].
Proof.
  unfold keepdim_shape. destruct (s0 ++ [d]) eqn:E.
  - destruct s0; discriminate.
  - rewrite <- E. rewrite length_app. cbn [length].
    replace (length s0 + 1 - 1)%nat with (length s0) by lia.
    now rewrite take_app_length.
Qed.

(** A tensor broadcasts against its own reduction along the last axis. *)
Lemma broadcast_shapes_keepdim (s : list nat) :
  broadcast_shapes s (keepdim_shape s) = Ok s.
Proof.
  destruct (last s) as [d|] eqn:L.
  - destruct (last_snoc_inv s d L) as [s0 ->].
    rewrite keepdim_shape_snoc. unfold broadcast_shapes.
    rewrite !rev_app_distr. cbn [rev app broadcast_rev].
    rewrite broadcast_rev_diag. cbn [mbind option_bind].
    destruct (d =? 1)%nat eqn:E.
    + now rewrite <- (rev_involutive s0) at 2.
    + cbn. now rewrite rev_involutive.
  - apply last_None in L. subst s. reflexivity.
Qed.

(** A vector of the width of the last axis broadcasts along it. *)
Lemma broadcast_shapes_vector (s : list nat) (d : nat) :
  last s = Some d -> broadcast_shapes [d] s = Ok s.
Proof.
  intros L. destruct (last_snoc_inv s d L) as [s0 ->].
  unfold broadcast_shapes. rewrite rev_app_distr. cbn [rev app broadcast_rev].
  cbn [mbind option_bind]. rewrite Nat.eqb_refl.
  cbn [rev]. now rewrite rev_involutive.
Qed.

Lemma binop_shape {A B C} (da : A) (db : B) (f : A -> B -> C) (a : tensor A) (b : tensor B)
    (s : list nat) :
  broadcast_shapes (shape a) (shape b) = Ok s ->
  exists l, binop da db f a b = Ok (mkTensor s l).
Proof. intros H. unfold binop. rewrite H. eexists. reflexivity. Qed.

(** ** [Sublayer] *)

Lemma norm_not_a_member : bool_decide ("norm" ∈ nn_Module_members) = false.
Proof. vm_compute. reflexivity. Qed.

Lemma Sublayer_init_inv (size : Z) (p : R) (self : pyobj) :
  Sublayer_init size p = Ok self ->
  exists layernorm drop,
    self = setattr (setattr (Module_init "Sublayer") "layernorm" layernorm) "dropout" drop.
Proof.
  unfold Sublayer_init. intros H.
  destruct (LayerNorm_init size LayerNorm_eps_default) as [ln|]; [|discriminate].
  cbn [mbind result_bind] in H.
  destruct (Dropout_init p) as [d|]; [|discriminate].
  cbn [mbind result_bind] in H. injection H as <-. eauto.
Qed.

(** C3. The claim: [forward] computes [x + dropout(f(layernorm(x)))].
    The code: [__init__] stores the normalisation as [self.layernorm],
    [forward] asks for [self.norm]; on every instance that [__init__]
    builds the call stops there with [AttributeError], for every input and
    every sublayer function, before [f] is applied. *)
Theorem Sublayer_forward_raises (draw : nat -> R) (size : Z) (p : R) (self : pyobj)
    (x : tensor R) (f : pyobj) :
  Sublayer_init size p = Ok self ->
  Sublayer_forward draw self x f = Raise (AttributeError "Sublayer" "norm").
Proof.
  intros H. destruct (Sublayer_init_inv _ _ _ H) as (ln & d & ->).
  unfold Sublayer_forward, Module_init. cbn [setattr].
  rewrite (getattr_setattr _ _ _ "dropout"), decide_True by reflexivity.
  cbn [mbind result_bind].
  rewrite !getattr_setattr, !decide_False by discriminate.
  rewrite getattr_missing; [reflexivity| |apply norm_not_a_member].
  vm_compute. reflexivity.
Qed.

Lemma Sublayer_forward_raises_witness :
  exists self,
    Sublayer_init 4 0.1 = Ok self
    /\ Sublayer_forward (fun _ => 0%R) self (full 1%R [1; 4]%nat) (VFun Ok)
       = Raise (AttributeError "Sublayer" "norm").
Proof.
  assert (H : exists self, Sublayer_init 4 0.1 = Ok self).
  { unfold Sublayer_init, Dropout_init.
    destruct (Rlt_dec 0.1 0) as [?|_]; [lra|].
    destruct (Rlt_dec 1 0.1) as [?|_]; [lra|].
    eexists. reflexivity. }
  destruct H as [self H]. exists self. split; [exact H|].
  exact (Sublayer_forward_raises (fun _ => 0%R) 4 0.1 self (full 1%R [1; 4]%nat) (VFun Ok) H).
Defined.

(** ** [LayerNorm] *)

Lemma LayerNorm_init_inv (features : Z) (eps : R) (self : pyobj) :
  LayerNorm_init features eps = Ok self ->
  self = VObject "LayerNorm"
           (<["beta" := VTensor (full 0%R [Z.to_nat features])]>
              (<["gamma" := VTensor (full 1%R [Z.to_nat features])]>
                 (<["eps" := VFloat eps]> {[ "training" := VBool true ]}))).
Proof.
  unfold LayerNorm_init, ones, zeros, filled. intros H.
  destruct (forallb _ [features]); [|discriminate].
  cbn [mbind result_bind] in H. injection H as <-. reflexivity.
Qed.

(** C4. The claim: [forward] returns [gamma * (x - mean) / (std + eps) + beta],
    with [eps] defaulting to 1e-6, [gamma] starting as ones and [beta] as
    zeros.  The code: the constructor does set these three attributes, but
    [forward] adds the bare name [eps], not [self.eps]; nothing binds it,
    so no call returns, and on an input of the right width the exception
    is that [NameError]. *)
Theorem LayerNorm_forward_raises (features : Z) (self : pyobj) (x : tensor R) :
  LayerNorm_init features LayerNorm_eps_default = Ok self ->
  getattr self "eps" = Ok (VFloat 1e-6)
  /\ getattr self "gamma" = Ok (VTensor (full 1%R [Z.to_nat features]))
  /\ getattr self "beta" = Ok (VTensor (full 0%R [Z.to_nat features]))
  /\ is_ok (LayerNorm_forward self x) = false
  /\ (last (shape x) = Some (Z.to_nat features) ->
      LayerNorm_forward self x = Raise (NameError "eps")).
Proof.
  intros H. apply LayerNorm_init_inv in H. subst self.
  assert (Hg : getattr (VObject "LayerNorm"
            (<["beta" := VTensor (full 0%R [Z.to_nat features])]>
               (<["gamma" := VTensor (full 1%R [Z.to_nat features])]>
                  (<["eps" := VFloat LayerNorm_eps_default]> {[ "training" := VBool true ]}))))
            "gamma" = Ok (VTensor (full 1%R [Z.to_nat features]))).
  { rewrite getattr_setattr, decide_False by discriminate.
    now rewrite getattr_setattr, decide_True. }
  split; [|split; [exact Hg|split; [|split]]].
  - rewrite !getattr_setattr. rewrite !decide_False by discriminate.
    now rewrite decide_True.
  - now rewrite getattr_setattr, decide_True.
  - unfold LayerNorm_forward. rewrite Hg. cbn [mbind result_bind as_tensor].
    destruct (tsub x (tmean x)) as [c|]; [|reflexivity]. cbn [mbind result_bind].
    destruct (tmul _ c) as [m|]; [|reflexivity]. cbn [mbind result_bind].
    now rewrite eps_unbound.
  - intros L. unfold LayerNorm_forward. rewrite Hg. cbn [mbind result_bind as_tensor].
    destruct (binop_shape 0%R 0%R Rminus x (tmean x) (shape x)) as [c Hc].
    { apply broadcast_shapes_keepdim. }
    unfold tsub. rewrite Hc. cbn [mbind result_bind].
    destruct (binop_shape 0%R 0%R Rmult (full 1%R [Z.to_nat features])
                (mkTensor (shape x) c) (shape x)) as [m Hm].
    { apply broadcast_shapes_vector. exact L. }
    unfold tmul. rewrite Hm. cbn [mbind result_bind].
    now rewrite eps_unbound.
Qed.

Lemma LayerNorm_forward_raises_witness :
  exists self,
    LayerNorm_init 2 LayerNorm_eps_default = Ok self
    /\ LayerNorm_forward self (mkTensor [2%nat] [1%R; 2%R]) = Raise (NameError "eps").
Proof.
  assert (H : exists self, LayerNorm_init 2 LayerNorm_eps_default = Ok self).
  { eexists. reflexivity. }
  destruct H as [self H]. exists self. split; [exact H|].
  apply (LayerNorm_forward_raises 2 self (mkTensor [2%nat] [1%R; 2%R]) H).
  reflexivity.
Defined.

(** ** [forward_mask] *)

Lemma lookup_map {A B} (f : A -> B) (l : list A) (i : nat) :
  map f l !! i = f <$> l !! i.
Proof.
  revert i. induction l as [|a l IH]; intros [|i]; cbn; auto.
Qed.

Lemma trunc_IZR (z : Z) : trunc (IZR z) = z.
Proof.
  unfold trunc. destruct (Rle_dec 0 (IZR z)) as [_|_].
  - symmetry. apply Int_part_spec. lra.
  - rewrite <- opp_IZR. rewrite <- (Int_part_spec (IZR (- z)) (- z)); [lia|lra].
Qed.

Lemma ravel_3 (a b c i j k : nat) :
  ravel [a; b; c] [i; j; k] = (i * (b * c) + j * c + k)%nat.
Proof. cbn [ravel numel foldr]. lia. Qed.

Lemma forward_mask_eq (n : Z) :
  (0 <= n)%Z ->
  forward_mask n
  = Ok (mkTensor [1; Z.to_nat n; Z.to_nat n]%nat
          (map (fun v => (v =? 0)%Z)
             (map (fun v => (trunc v mod 256)%Z)
                (imap (fun k v =>
                         if (1 <=? Z.of_nat (k mod Z.to_nat n)
                                   - Z.of_nat ((k / Z.to_nat n) mod Z.to_nat n))%Z
                         then v else 0%R)
                      (replicate (numel [1; Z.to_nat n; Z.to_nat n]%nat) 1%R))))).
Proof.
  intros Hn. unfold forward_mask, ones, filled.
  cbn [forallb]. replace (0 <=? n)%Z with true by (symmetry; apply Z.leb_le; exact Hn).
  reflexivity.
Qed.

(** C2. For every length [n >= 0], [forward_mask n] is a boolean tensor of
    shape (1, n, n), with one entry per index, whose entry (i, j) is true
    exactly when [j <= i]; the diagonal in particular is true. *)
Theorem forward_mask_lower_triangle (n : Z) :
  (0 <= n)%Z ->
  exists m,
    forward_mask n = Ok m
    /\ shape m = [1; Z.to_nat n; Z.to_nat n]%nat
    /\ wf m
    /\ (forall i j, (i < Z.to_nat n)%nat -> (j < Z.to_nat n)%nat ->
          tget m [0; i; j]%nat = Some (j <=? i)%nat)
    /\ (forall i, (i < Z.to_nat n)%nat -> tget m [0; i; i]%nat = Some true).
Proof.
  intros Hn. eexists. split; [apply forward_mask_eq; exact Hn|].
  set (N := Z.to_nat n).
  assert (Hentry : forall i j, (i < N)%nat -> (j < N)%nat ->
    tget (mkTensor [1; N; N]%nat
      (map (fun v => (v =? 0)%Z)
         (map (fun v => (trunc v mod 256)%Z)
            (imap (fun k v =>
                     if (1 <=? Z.of_nat (k mod N) - Z.of_nat ((k / N) mod N))%Z
                     then v else 0%R)
                  (replicate (numel [1; N; N]%nat) 1%R)))))
      [0; i; j]%nat = Some (j <=? i)%nat).
  { intros i j Hi Hj. unfold tget. cbn [shape data in_bounds].
    replace (0 <? 1)%nat with true by reflexivity.
    replace (i <? N)%nat with true by (symmetry; apply Nat.ltb_lt; exact Hi).
    replace (j <? N)%nat with true by (symmetry; apply Nat.ltb_lt; exact Hj).
    cbn [andb]. rewrite ravel_3, !lookup_map, list_lookup_imap.
    replace (0 * (N * N) + i * N + j)%nat with (j + i * N)%nat by lia.
    rewrite lookup_replicate_2.
    2:{ cbn [numel foldr]. nia. }
    cbn [fmap option_fmap option_map]. f_equal.
    rewrite Nat.Div0.mod_add, (Nat.mod_small j N) by exact Hj.
    rewrite Nat.div_add by lia.
    rewrite (Nat.div_small j N), Nat.add_0_l, (Nat.mod_small i N) by lia.
    destruct (Nat.leb_spec j i) as [Hle|Hlt].
    - replace (1 <=? Z.of_nat j - Z.of_nat i)%Z with false
        by (symmetry; apply Z.leb_gt; lia).
      now rewrite (trunc_IZR 0).
    - replace (1 <=? Z.of_nat j - Z.of_nat i)%Z with true
        by (symmetry; apply Z.leb_le; lia).
      now rewrite (trunc_IZR 1). }
  split; [reflexivity|]. split; [|split].
  - unfold wf. cbn [shape data]. now rewrite !length_map, length_imap, length_replicate.
  - exact Hentry.
  - intros i Hi. rewrite (Hentry i i Hi Hi). now rewrite Nat.leb_refl.
Qed.

Lemma forward_mask_lower_triangle_witness :
  exists m,
    forward_mask 4 = Ok m
    /\ shape m = [1; 4; 4]%nat
    /\ tget m [0; 2; 2]%nat = Some true
    /\ tget m [0; 2; 3]%nat = Some false.
Proof.
  destruct (forward_mask_lower_triangle 4 ltac:(lia)) as (m & Hm & Hs & _ & He & _).
  exists m. split; [exact Hm|]. split; [exact Hs|].
  split; [exact (He 2%nat 2%nat ltac:(cbn; lia) ltac:(cbn; lia))
         |exact (He 2%nat 3%nat ltac:(cbn; lia) ltac:(cbn; lia))].
Defined.

Example forward_mask_2 :
  forward_mask 2 = Ok (mkTensor [1; 2; 2]%nat [true; false; true; true]).
Proof.
  rewrite forward_mask_eq by lia.
  cbv -[trunc IZR Z.modulo Z.eqb].
  rewrite !trunc_IZR. reflexivity.
Qed.

(** ** [attention] *)

Lemma tget_tmap {A B} (f : A -> B) (t : tensor A) (idx : list nat) :
  tget (tmap f t) idx = f <$> tget t idx.
Proof.
  unfold tget, tmap. cbn [shape data].
  destruct (in_bounds (shape t) idx); [apply lookup_map|reflexivity].
Qed.

Lemma unravel_2 (a b i j : nat) :
  (j < b)%nat -> unravel [a; b] (i * b + j) = [i; j].
Proof.
  intros Hj. cbn [unravel numel foldr]. rewrite !Nat.mul_1_r, Nat.div_1_r.
  rewrite (Nat.add_comm (i * b)), Nat.div_add, Nat.Div0.mod_add by lia.
  rewrite Nat.div_small, Nat.mod_small by lia. reflexivity.
Qed.

Lemma nth_map_seq {A} (f : nat -> A) (n k : nat) (d : A) :
  (k < n)%nat -> nth k (map f (seq 0 n)) d = f k.
Proof.
  intros Hk. rewrite nth_lookup, lookup_map, lookup_seq_lt by exact Hk. reflexivity.
Qed.

Lemma rsum_ext (f g : nat -> R) (n : nat) :
  (forall l, (l < n)%nat -> f l = g l) ->
  rsum (map f (seq 0 n)) = rsum (map g (seq 0 n)).
Proof.
  intros H. f_equal. apply map_ext_in. intros l Hl. apply H.
  apply in_seq in Hl. lia.
Qed.

(** For matrices the raw score of query row [i] against key row [j] is
    their dot product, and the score is that divided by [sqrt d]. *)
Lemma attention_scores_2d (query key : tensor R) (n m d i j : nat) :
  shape query = [n; d] -> shape key = [m; d] -> (i < n)%nat -> (j < m)%nat ->
  exists scores,
    attention_scores query key = Ok scores
    /\ shape scores = [n; m]
    /\ tget scores [i; j]
       = Some (rsum (map (fun l => (nth (i * d + l) (data query) 0
                                    * nth (j * d + l) (data key) 0)%R) (seq 0 d))
               / sqrt (INR d))%R.
Proof.
  intros Hq Hk Hi Hj.
  unfold attention_scores, last_dim, transpose. rewrite Hq, Hk.
  cbn [last length mbind result_bind].
  change (norm_dim 2 (-2)) with (Ok 0%nat : result nat).
  change (norm_dim 2 (-1)) with (Ok 1%nat : result nat).
  cbn [mbind result_bind]. change (swap [m; d] 0 1) with [d; m].
  unfold matmul. cbn [shape data]. rewrite Hq.
  cbn [length Nat.eqb Nat.sub take firstn nth app].
  rewrite Nat.eqb_refl.
  cbn [broadcast_shapes rev app broadcast_rev mbind result_bind length take firstn].
  eexists. split; [reflexivity|]. split; [reflexivity|].
  unfold tget, div_scalar, tmap. cbn [shape data in_bounds].
  replace (i <? n)%nat with true by (symmetry; apply Nat.ltb_lt; exact Hi).
  replace (j <? m)%nat with true by (symmetry; apply Nat.ltb_lt; exact Hj).
  cbn [andb ravel numel foldr]. rewrite !lookup_map.
  replace (i * (m * 1) + (j * 1 + 0))%nat with (i * m + j)%nat by lia.
  rewrite lookup_seq_lt by nia.
  cbn [fmap option_fmap option_map Nat.add]. f_equal. f_equal.
  rewrite unravel_2 by exact Hj. cbn [nth bidx length Nat.sub drop zip_with app].
  apply rsum_ext. intros l Hl. f_equal.
  - f_equal. cbn [ravel numel foldr]. lia.
  - cbn [ravel numel foldr].
    replace (l * (m * 1) + (j * 1 + 0))%nat with (l * m + j)%nat by lia.
    rewrite nth_map_seq by (cbn [numel foldr]; nia).
    rewrite unravel_2 by exact Hj. change (swap [l; j] 0 1) with [j; l].
    f_equal. cbn [ravel numel foldr]. lia.
Qed.

(** C10. The divisor of the scores is the square root of the query's own
    last dimension, read at the call: when that dimension is [d >= 1],
    the divisor is positive and each raw score of [matmul(query, key^T)] is divided
    by exactly [sqrt d], in the scores and hence in the weights and the
    output that [attention] goes on to compute from them. *)
Theorem attention_scales_by_query_width (draw : nat -> R) (query key value : tensor R)
    (d : nat) (kt qk : tensor R) :
  last (shape query) = Some d ->
  (1 <= d)%nat ->
  transpose 0%R key (-2) (-1) = Ok kt ->
  matmul query kt = Ok qk ->
  (0 < sqrt (INR d))%R
  /\ attention_scores query key = Ok (tmap (fun s => (s / sqrt (INR d))%R) qk)
  /\ (forall idx s, tget qk idx = Some s ->
        exists scores, attention_scores query key = Ok scores
                       /\ tget scores idx = Some (s / sqrt (INR d))%R)
  /\ attention_weights query key None
     = Ok (softmax (tmap (fun s => (s / sqrt (INR d))%R) qk))
  /\ attention draw query key value None None
     = matmul (softmax (tmap (fun s => (s / sqrt (INR d))%R) qk)) value.
Proof.
  intros Hd Hpos Hkt Hqk.
  assert (Hs : attention_scores query key = Ok (tmap (fun s => (s / sqrt (INR d))%R) qk)).
  { unfold attention_scores, last_dim. rewrite Hd. cbn [mbind result_bind].
    rewrite Hkt. cbn [mbind result_bind]. rewrite Hqk. reflexivity. }
  split; [|split; [exact Hs|split; [|split]]].
  - apply sqrt_lt_R0. apply lt_0_INR. lia.
  - intros idx s Hget. eexists. split; [exact Hs|].
    rewrite tget_tmap, Hget. reflexivity.
  - unfold attention_weights. rewrite Hs. reflexivity.
  - unfold attention, attention_weights. rewrite Hs. reflexivity.
Qed.

Lemma attention_scales_by_query_width_witness :
  let query := mkTensor [1; 2]%nat [1%R; 2%R] in
  let key := mkTensor [1; 2]%nat [3%R; 4%R] in
  exists scores,
    attention_scores query key = Ok scores
    /\ tget scores [0; 0]%nat = Some ((1 * 3 + (2 * 4 + 0)) / sqrt (INR 2))%R
    /\ (0 < sqrt (INR 2))%R.
Proof.
  intros query key.
  destruct (attention_scales_by_query_width (fun _ => 0%R) query key key 2%nat
              (mkTensor [2; 1]%nat [3%R; 4%R])
              (mkTensor [1; 1]%nat [(1 * 3 + (2 * 4 + 0))%R]))
    as (Hpos & Hs & _).
  - reflexivity.
  - lia.
  - reflexivity.
  - reflexivity.
  - eexists. split; [exact Hs|]. split; [reflexivity|exact Hpos].
Defined.






(** C1. The claim: a masked-out position gets a weight within 1e-5 of
    zero, the masked scores being set to a very large negative number.
    The code fills them with [1e-9], a small positive number.  With two
    positions, zero queries and keys and the causal mask of
    [forward_mask 2], position 0 gives the later position 1, which the
    mask rules out, a weight of at least one half. *)
Theorem attention_mask_leaks :
  let query := mkTensor [1; 2; 1]%nat [0%R; 0%R] in
  let key := mkTensor [1; 2; 1]%nat [0%R; 0%R] in
  exists mask weights w,
    forward_mask 2 = Ok mask
    /\ tget mask [0; 0; 1]%nat = Some false
    /\ attention_weights query key (Some mask) = Ok weights
    /\ tget weights [0; 0; 1]%nat = Some w
    /\ (1 / 2 <= w)%R
    /\ (0 < mask_fill_value)%R.
Proof.
  intros query key. eexists. eexists. eexists.
  split; [apply forward_mask_2|].
  split; [reflexivity|].
  split; [cbv -[exp sqrt Rplus Rmult Rdiv Rminus IZR INR Rinv]; reflexivity|].
  split; [cbv -[exp sqrt Rplus Rmult Rdiv Rminus IZR INR Rinv]; reflexivity|].
  split; [|unfold mask_fill_value; lra].
  replace ((0 * 0 + 0) / sqrt (INR 1))%R with 0%R by (unfold Rdiv; ring).
  rewrite exp_0.
  assert (Ha : (1 < exp (1 / 1000000000))%R).
  { pose proof (exp_increasing 0 (1 / 1000000000)) as H. rewrite exp_0 in H.
    apply H. lra. }
  set (a := exp (1 / 1000000000)) in *.
  apply (Rmult_le_reg_r (1 + (a + 0))%R); [lra|].
  replace (a / (1 + (a + 0)) * (1 + (a + 0)))%R with a by (field; lra).
  lra.
Qed.

(** C5. The claim: [attention] produces two results, the output and the
    attention weights.  The code returns [scaled_attention] alone.  On
    1-by-1 inputs the returned tensor has the output's shape (1, 1); the
    statement [x, self.attn = attention(...)] of
    [MultiHeadAttention.forward] then iterates over that single tensor and
    finds one slice where it wants two values. *)
Theorem attention_returns_output_only :
  let query := mkTensor [1; 1]%nat [1%R] in
  let key := mkTensor [1; 1]%nat [1%R] in
  let value := mkTensor [1; 1]%nat [1%R] in
  exists out,
    attention (fun _ => 0%R) query key value None None = Ok out
    /\ shape out = [1; 1]%nat
    /\ unpack2 out = Raise (ValueError "not enough values to unpack (expected 2)").
Proof.
  intros query key value. eexists.
  split; [cbv -[exp sqrt Rplus Rmult Rdiv Rminus IZR INR Rinv]; reflexivity|].
  split; reflexivity.
Qed.

(** ** [MultiHeadAttention.forward] *)

Example unit_Linear_init :
  Linear_init 1 1 (mkTensor [1; 1]%nat [1%R]) (mkTensor [1%nat] [0%R]) = Ok unit_Linear.
Proof. reflexivity. Qed.

Example Dropout_object_init : Dropout_init 0.1 = Ok (Dropout_object 0.1 true).
Proof.
  unfold Dropout_init.
  destruct (Rlt_dec 0.1 0) as [?|_]; [lra|].
  destruct (Rlt_dec 1 0.1) as [?|_]; [lra|]. reflexivity.
Qed.

(** With [h = d_model = 1]: the constructor raises; on the object it would
    have built, a batch of one sequence ends in [ValueError], and a batch
    of two sequences of length 2 comes out with shape (2, 1, 1). *)
Example MultiHeadAttention_forward_unit :
  let self := MultiHeadAttention_object 1 1
                [unit_Linear; unit_Linear; unit_Linear; unit_Linear] VNone
                (Dropout_object 0.1 true) in
  let one := mkTensor [1; 1; 1]%nat [1%R] in
  let two := mkTensor [2; 2; 1]%nat [1%R; 2%R; 3%R; 4%R] in
  MultiHeadAttention_init 1 1 0.1 (mkTensor [1; 1]%nat [1%R]) (mkTensor [1%nat] [0%R])
  = Raise (NameError "numbers")
  /\ snd (MultiHeadAttention_forward (fun _ => 0%R) self one one one None)
     = Raise (ValueError "not enough values to unpack (expected 2)")
  /\ (exists out,
        snd (MultiHeadAttention_forward (fun _ => 0%R) self two two two None) = Ok out
        /\ shape out = [2; 1; 1]%nat).
Proof.
  intros self one two. split; [|split].
  - unfold MultiHeadAttention_init, py_mod, py_floordiv, Linear_init.
    cbn [Z.eqb mbind result_bind].
    change ((1 mod 1 =? 0)%Z) with true. change ((1 <? 0)%Z) with false.
    cbn [negb orb mbind result_bind]. now rewrite clone_raises.
  - vm_compute. reflexivity.
  - eexists. split; [vm_compute; reflexivity|reflexivity].
Qed.

(** ** Repeated calls *)

Section TwoRuns.

Variables draw1 draw2 : nat -> R.
Hypothesis draws1 : unit_draws draw1.
Hypothesis draws2 : unit_draws draw2.

Lemma imap_same {A} (f : nat -> A -> A) (l : list A) :
  (forall k a, f k a = a) -> imap f l = l.
Proof.
  intros H. revert f H. induction l as [|a l IH]; intros f H; [reflexivity|].
  cbn [imap]. rewrite H. f_equal. apply IH. intros k b. apply H.
Qed.

Lemma dropout_zero (draw : nat -> R) (training : bool) (x : tensor R) :
  unit_draws draw -> dropout 0 training draw x = x.
Proof.
  intros Hd. unfold dropout. destruct training; [|reflexivity].
  rewrite imap_same; [now destruct x|].
  intros k a. destruct (Rlt_dec (draw k) (1 - 0)) as [_|Hn].
  - field.
  - exfalso. apply Hn. destruct (Hd k). lra.
Qed.

Lemma call_dropout_off (drop : pyobj) (x : tensor R) :
  dropout_off drop -> call draw1 drop x = call draw2 drop x.
Proof.
  intros (attrs & -> & Hp). cbn [call].
  change (String.eqb "Dropout" "LayerNorm") with false.
  change (String.eqb "Dropout" "Dropout") with true. cbv iota.
  unfold Dropout_forward. cbn [getattr]. rewrite Hp.
  cbn [mbind result_bind as_float].
  destruct (match attrs !! "training" with
            | Some v => Ok v
            | None => _
            end ≫= as_bool) as [training|e]; [|reflexivity].
  cbn [mbind result_bind]. now rewrite !dropout_zero.
Qed.

Lemma call_Linear (lin : pyobj) (x : tensor R) :
  is_Linear lin -> call draw1 lin x = call draw2 lin x.
Proof. intros (attrs & ->). reflexivity. Qed.

Lemma attention_draws (query key value : tensor R) (mask : option (tensor bool))
    (dropout : option pyobj) :
  (forall drop, dropout = Some drop -> dropout_off drop) ->
  attention draw1 query key value mask dropout
  = attention draw2 query key value mask dropout.
Proof.
  intros Hoff. unfold attention.
  destruct (attention_weights query key mask) as [w|e]; [|reflexivity].
  cbn [mbind result_bind]. destruct dropout as [drop|]; [|reflexivity].
  now rewrite (call_dropout_off drop w (Hoff drop eq_refl)).
Qed.

Lemma mapM_ext {A B} (f g : A -> result B) (l : list A) :
  (forall a, a ∈ l -> f a = g a) -> mapM f l = mapM g l.
Proof.
  induction l as [|a l IH]; intros H; [reflexivity|].
  cbn [mapM]. rewrite (H a) by apply list_elem_of_here.
  rewrite IH; [reflexivity|]. intros b Hb. apply H. now apply list_elem_of_further.
Qed.

Lemma elem_of_zip_l {A B} (a : A) (b : B) (l : list A) (k : list B) :
  (a, b) ∈ zip l k -> a ∈ l.
Proof.
  revert k. induction l as [|a' l IH]; intros [|b' k] H; cbn in H;
    try (now apply elem_of_nil in H).
  apply elem_of_cons in H as [H|H].
  - injection H as -> ->. apply list_elem_of_here.
  - apply list_elem_of_further. eapply IH. exact H.
Qed.

Lemma agree_setattr (self : pyobj) (v : pyobj) : agree self (setattr self "attn" v).
Proof.
  intros name Hne. destruct self; try reflexivity.
  cbn [setattr]. rewrite getattr_setattr. now rewrite decide_False by congruence.
Qed.

Lemma heads_two_runs (self self' : pyobj) (linears : list pyobj) (drop : pyobj)
    (query key value : tensor R) (mask : option (tensor bool)) :
  agree self self' ->
  getattr self "linears" = Ok (VList linears) ->
  Forall is_Linear linears ->
  getattr self "dropout" = Ok drop ->
  dropout_off drop ->
  MultiHeadAttention_heads draw1 self query key value mask
  = MultiHeadAttention_heads draw2 self' query key value mask.
Proof.
  intros Hag Hlin Hall Hdrop Hoff. unfold MultiHeadAttention_heads.
  destruct (match mask with Some m => _ | None => Ok tt end) as [[]|e]; [|reflexivity].
  cbn [mbind result_bind].
  destruct (first_dim query) as [nb|e]; [|reflexivity].
  cbn [mbind result_bind].
  rewrite <- (Hag "linears") by discriminate. rewrite Hlin.
  cbn [mbind result_bind iter].
  rewrite <- (Hag "dropout") by discriminate. rewrite Hdrop.
  match goal with
  | |- mbind _ (mapM ?f1 ?l) = mbind _ (mapM ?f2 _) =>
      assert (Hm : mapM f1 l = mapM f2 l)
  end.
  { apply mapM_ext. intros [lin x] Hin. apply elem_of_zip_l in Hin.
    rewrite Forall_forall in Hall.
    rewrite (call_Linear lin x) by (apply Hall; exact Hin).
    rewrite <- (Hag "h"), <- (Hag "d_k") by discriminate. reflexivity. }
  rewrite Hm. clear Hm.
  destruct (mapM _ _) as [[|q [|k [|v [|? ?]]]]|e]; try reflexivity.
  cbn [mbind result_bind].
  rewrite (attention_draws q k v mask (Some drop)); [reflexivity|].
  intros d [= <-]. exact Hoff.
Qed.

Lemma concat_two_runs (self self' : pyobj) (linears : list pyobj)
    (num_batches : nat) (x : tensor R) :
  agree self self' ->
  getattr self "linears" = Ok (VList linears) ->
  Forall is_Linear linears ->
  MultiHeadAttention_concat draw1 self num_batches x
  = MultiHeadAttention_concat draw2 self' num_batches x.
Proof.
  intros Hag Hlin Hall. unfold MultiHeadAttention_concat.
  destruct (transpose 0%R x 1 2) as [xt|e]; [|reflexivity].
  cbn [mbind result_bind].
  rewrite <- (Hag "h"), <- (Hag "d_k"), <- (Hag "linears") by discriminate.
  destruct (getattr self "h" ≫= as_int) as [h|e]; [|reflexivity].
  cbn [mbind result_bind].
  destruct (getattr self "d_k" ≫= as_int) as [d_k|e]; [|reflexivity].
  cbn [mbind result_bind].
  destruct (view (contiguous xt) _) as [v|e]; [|reflexivity].
  cbn [mbind result_bind]. rewrite Hlin. cbn [mbind result_bind iter].
  unfold last_item. destruct (last linears) as [final|] eqn:L; [|reflexivity].
  cbn [mbind result_bind]. apply call_Linear.
  rewrite Forall_forall in Hall. apply Hall.
  apply last_Some in L as [l' ->]. apply elem_of_app. right. apply list_elem_of_here.
Qed.

End TwoRuns.

(** On matrices [attention] does return: an n-by-d query, an m-by-d key
    and an m-by-dv value give an n-by-dv output. *)
Lemma attention_shape_2d (draw : nat -> R) (query key value : tensor R) (n m d dv : nat) :
  shape query = [n; d] -> shape key = [m; d] -> shape value = [m; dv] ->
  exists out, attention draw query key value None None = Ok out /\ shape out = [n; dv].
Proof.
  intros Hq Hk Hv.
  unfold attention, attention_weights, attention_scores, last_dim, transpose.
  rewrite Hq, Hk. cbn [last length norm_dim mbind result_bind].
  change (norm_dim 2 (-2)) with (Ok 0%nat : result nat).
  change (norm_dim 2 (-1)) with (Ok 1%nat : result nat).
  cbn [mbind result_bind]. unfold matmul at 2. cbn [shape]. rewrite Hq.
  change (swap [m; d] 0 1) with [d; m].
  cbn [length Nat.eqb Nat.sub take firstn nth app].
  rewrite Nat.eqb_refl. cbn [broadcast_shapes rev app broadcast_rev mbind result_bind].
  unfold matmul. cbn [shape softmax div_scalar tmap]. rewrite Hv.
  cbn [length Nat.eqb Nat.sub take firstn nth app].
  rewrite Nat.eqb_refl. cbn [broadcast_shapes rev app broadcast_rev mbind result_bind].
  eexists. split; reflexivity.
Qed.

(** ** The shapes through [MultiHeadAttention.forward] *)

Lemma transpose_2 {A} (dflt : A) (t : tensor A) (a b : nat) :
  shape t = [a; b] ->
  exists l, transpose dflt t 0 1 = Ok (mkTensor [b; a] l).
Proof.
  intros H. unfold transpose. rewrite H. cbn [length].
  change (norm_dim 2 0) with (Ok 0%nat : result nat).
  change (norm_dim 2 1) with (Ok 1%nat : result nat).
  cbn [mbind result_bind]. change (swap [a; b] 0 1) with [b; a].
  eexists. reflexivity.
Qed.

Lemma transpose_3 {A} (dflt : A) (t : tensor A) (a b c : nat) :
  shape t = [a; b; c] ->
  exists l, transpose dflt t 1 2 = Ok (mkTensor [a; c; b] l).
Proof.
  intros H. unfold transpose. rewrite H. cbn [length].
  change (norm_dim 3 1) with (Ok 1%nat : result nat).
  change (norm_dim 3 2) with (Ok 2%nat : result nat).
  cbn [mbind result_bind]. change (swap [a; b; c] 1 2) with [a; c; b].
  eexists. reflexivity.
Qed.

Lemma transpose_4 {A} (dflt : A) (t : tensor A) (a b c d : nat) :
  shape t = [a; b; c; d] ->
  (exists l, transpose dflt t 1 2 = Ok (mkTensor [a; c; b; d] l))
  /\ (exists l, transpose dflt t (-2) (-1) = Ok (mkTensor [a; b; d; c] l)).
Proof.
  intros H. unfold transpose. rewrite H. cbn [length].
  change (norm_dim 4 1) with (Ok 1%nat : result nat).
  change (norm_dim 4 2) with (Ok 2%nat : result nat).
  change (norm_dim 4 (-2)) with (Ok 2%nat : result nat).
  change (norm_dim 4 (-1)) with (Ok 3%nat : result nat).
  cbn [mbind result_bind].
  change (swap [a; b; c; d] 1 2) with [a; c; b; d].
  change (swap [a; b; c; d] 2 3) with [a; b; d; c].
  split; eexists; reflexivity.
Qed.

Lemma matmul_3_2 (x w : tensor R) (a b c d : nat) :
  shape x = [a; b; c] -> shape w = [c; d] ->
  exists l, matmul x w = Ok (mkTensor [a; b; d] l).
Proof.
  intros Hx Hw. unfold matmul. rewrite Hx, Hw.
  cbn [length Nat.eqb Nat.sub take firstn nth app].
  rewrite Nat.eqb_refl.
  cbn [broadcast_shapes rev app broadcast_rev mbind result_bind].
  eexists. reflexivity.
Qed.

Lemma matmul_4_4 (x y : tensor R) (a b n m p : nat) :
  shape x = [a; b; n; m] -> shape y = [a; b; m; p] ->
  exists l, matmul x y = Ok (mkTensor [a; b; n; p] l).
Proof.
  intros Hx Hy. unfold matmul. rewrite Hx, Hy.
  cbn [length Nat.eqb Nat.sub take firstn nth app].
  rewrite Nat.eqb_refl. unfold broadcast_shapes.
  rewrite broadcast_rev_diag. rewrite rev_involutive.
  cbn [mbind result_bind app].
  eexists. reflexivity.
Qed.


Lemma broadcast_rev_nil_r (s : list nat) : broadcast_rev s [] = Some s.
Proof. now destruct s. Qed.

Lemma broadcast_shapes_vector_r (s : list nat) (d : nat) :
  last s = Some d -> broadcast_shapes s [d] = Ok s.
Proof.
  intros L. destruct (last_snoc_inv s d L) as [s0 ->].
  unfold broadcast_shapes. rewrite rev_app_distr. cbn [rev app broadcast_rev].
  rewrite broadcast_rev_nil_r. cbn [mbind option_bind]. rewrite Nat.eqb_refl.
  cbn [rev]. now rewrite rev_involutive.
Qed.

Lemma Linear_object_call (draw : nat -> R) (lin : pyobj) (i o : Z) (w b x : tensor R)
    (B S D E : nat) :
  Linear_init i o w b = Ok lin ->
  shape w = [E; D] -> shape b = [E] -> shape x = [B; S; D] ->
  exists l, call draw lin x = Ok (mkTensor [B; S; E] l).
Proof.
  unfold Linear_init. intros Hlin Hw Hb Hx.
  destruct (_ || _); [discriminate|]. injection Hlin as <-.
  unfold Module_init. cbn [setattr call].
  change (String.eqb "Linear" "LayerNorm") with false.
  change (String.eqb "Linear" "Dropout") with false.
  change (String.eqb "Linear" "Linear") with true. cbv iota.
  unfold Linear_forward.
  rewrite (getattr_setattr _ _ _ "weight"), decide_False by discriminate.
  rewrite (getattr_setattr _ _ _ "weight"), decide_True by reflexivity.
  rewrite (getattr_setattr _ _ _ "bias"), decide_True by reflexivity.
  cbn [mbind result_bind as_tensor].
  destruct (transpose_2 0%R w E D Hw) as [lw ->]. cbn [mbind result_bind].
  destruct (matmul_3_2 x (mkTensor [D; E] lw) B S D E Hx eq_refl) as [lm ->].
  cbn [mbind result_bind].
  apply (binop_shape 0%R 0%R Rplus). cbn [shape]. rewrite Hb.
  now apply broadcast_shapes_vector_r.
Qed.


Lemma of_nat_ltb_m1 (n : nat) : (Z.of_nat n <? -1)%Z = false.
Proof. apply Z.ltb_ge. lia. Qed.

Lemma of_nat_eqb_m1 (n : nat) : (Z.of_nat n =? -1)%Z = false.
Proof. apply Z.eqb_neq. lia. Qed.

Lemma of_nat_leb_0 (n : nat) : (0 <=? Z.of_nat n)%Z = true.
Proof. apply Z.leb_le. lia. Qed.

Lemma view_split {A} (y : tensor A) (B S H K : nat) :
  shape y = [B; S; H * K]%nat -> (1 <= B)%nat -> (1 <= H)%nat -> (1 <= K)%nat ->
  view y [Z.of_nat B; (-1)%Z; Z.of_nat H; Z.of_nat K] = Ok (mkTensor [B; S; H; K] (data y)).
Proof.
  intros Hy HB HH HK. unfold view, view_known. rewrite Hy.
  cbn [existsb List.filter map]. rewrite !of_nat_ltb_m1, !of_nat_eqb_m1, !of_nat_leb_0.
  change (-1 <? -1)%Z with false. change (-1 =? -1)%Z with true.
  change (0 <=? -1)%Z with false.
  cbn [orb length map]. rewrite !Nat2Z.id. cbn [numel foldr].
  replace (B * (H * (K * 1)) =? 0)%nat with false by (symmetry; apply Nat.eqb_neq; nia).
  replace (B * (S * (H * K * 1)))%nat with (S * (B * (H * (K * 1))))%nat by lia.
  rewrite Nat.Div0.mod_mul, Nat.div_mul by nia.
  reflexivity.
Qed.

Lemma view_merge {A} (x : tensor A) (H K S : nat) :
  shape x = [H; K; S] -> (1 <= H)%nat -> (1 <= K)%nat ->
  view x [2%Z; (-1)%Z; (Z.of_nat H * Z.of_nat K)%Z]
  = if Nat.even S then Ok (mkTensor [2; S / 2; H * K]%nat (data x))
    else Raise (RuntimeError "shape is invalid for input size").
Proof.
  intros Hx HH HK. unfold view, view_known. rewrite Hx.
  rewrite <- Nat2Z.inj_mul.
  cbn [existsb List.filter map]. rewrite !of_nat_ltb_m1, !of_nat_eqb_m1, !of_nat_leb_0.
  change (2 <? -1)%Z with false. change (2 =? -1)%Z with false.
  change (-1 <? -1)%Z with false. change (-1 =? -1)%Z with true.
  change (0 <=? -1)%Z with false. change (0 <=? 2)%Z with true.
  cbn [orb length map]. rewrite !Nat2Z.id. change (Z.to_nat 2) with 2%nat.
  cbn [numel foldr].
  replace (2 * (H * K * 1) =? 0)%nat with false by (symmetry; apply Nat.eqb_neq; nia).
  replace (H * (K * (S * 1)))%nat with (S * (H * K))%nat by lia.
  replace (2 * (H * K * 1))%nat with (2 * (H * K))%nat by lia.
  destruct (Nat.even S) eqn:E.
  - apply Nat.even_spec in E as [c ->].
    replace (2 * c * (H * K))%nat with (c * (2 * (H * K)))%nat by lia.
    rewrite Nat.Div0.mod_mul, Nat.div_mul by nia. cbn [Nat.eqb].
    replace (2 * c / 2)%nat with c; [reflexivity|].
    rewrite Nat.mul_comm, Nat.div_mul; lia.
  - assert (Hodd : Nat.odd S = true) by (rewrite <- Nat.negb_even, E; reflexivity).
    apply Nat.odd_spec in Hodd as [c ->].
    replace ((2 * c + 1) * (H * K) mod (2 * (H * K)) =? 0)%nat with false; [reflexivity|].
    symmetry. apply Nat.eqb_neq. intros Hm.
    apply Nat.Div0.mod_divides in Hm as [q Hq].
    replace (2 * (H * K) * q)%nat with (2 * q * (H * K))%nat in Hq by lia.
    apply Nat.mul_cancel_r in Hq; [lia|nia].
Qed.

Lemma Dropout_call (draw : nat -> R) (p : R) (drop : pyobj) (x : tensor R) :
  Dropout_init p = Ok drop ->
  exists l, call draw drop x = Ok (mkTensor (shape x) l).
Proof.
  unfold Dropout_init. intros H.
  destruct (Rlt_dec p 0); [discriminate|]. destruct (Rlt_dec 1 p); [discriminate|].
  injection H as <-. unfold Module_init. cbn [setattr call].
  change (String.eqb "Dropout" "LayerNorm") with false.
  change (String.eqb "Dropout" "Dropout") with true. cbv iota.
  unfold Dropout_forward.
  rewrite (getattr_setattr _ _ _ "p"), decide_False by discriminate.
  rewrite (getattr_setattr _ _ _ "p"), decide_True by reflexivity.
  rewrite !(getattr_setattr _ _ _ "training"), !decide_False by discriminate.
  cbn [mbind result_bind as_float].
  replace (getattr (VObject "Dropout" {["training" := VBool true]}) "training")
    with (Ok (VBool true) : result pyobj) by (cbn [getattr]; now rewrite lookup_singleton_eq).
  cbn [mbind result_bind as_bool]. unfold dropout. eexists. reflexivity.
Qed.


Lemma MultiHeadAttention_object_attrs (h d_k : Z) (linears : list pyobj) (attn drop : pyobj) :
  let self := MultiHeadAttention_object h d_k linears attn drop in
  getattr self "h" = Ok (VInt h)
  /\ getattr self "d_k" = Ok (VInt d_k)
  /\ getattr self "linears" = Ok (VList linears)
  /\ getattr self "dropout" = Ok drop.
Proof.
  unfold MultiHeadAttention_object, Module_init. cbn [setattr].
  rewrite !getattr_setattr. rewrite !decide_False by discriminate.
  rewrite !decide_True by reflexivity. auto.
Qed.

Lemma attention_shape_4d (draw : nat -> R) (query key value : tensor R) (p : R)
    (drop : pyobj) (B H S K : nat) :
  Dropout_init p = Ok drop ->
  shape query = [B; H; S; K] -> shape key = [B; H; S; K] -> shape value = [B; H; S; K] ->
  exists l, attention draw query key value None (Some drop) = Ok (mkTensor [B; H; S; K] l).
Proof.
  intros Hdrop Hq Hk Hv.
  unfold attention, attention_weights, attention_scores, last_dim.
  rewrite Hq. cbn [last mbind result_bind].
  destruct (transpose_4 0%R key B H S K Hk) as [_ [lk ->]].
  cbn [mbind result_bind].
  destruct (matmul_4_4 query (mkTensor [B; H; K; S] lk) B H S K S Hq eq_refl) as [ls ->].
  cbn [mbind result_bind].
  destruct (Dropout_call draw p drop
              (softmax (div_scalar (mkTensor [B; H; S; S] ls) (sqrt (INR K)))) Hdrop)
    as [ld ->].
  cbn [mbind result_bind shape softmax div_scalar tmap].
  eapply matmul_4_4; [reflexivity|exact Hv].
Qed.

Section Heads.

Variables (draw : nat -> R) (H K B S : nat) (w b : tensor R) (p : R) (lin drop : pyobj).
Hypothesis HH : (1 <= H)%nat.
Hypothesis HK : (1 <= K)%nat.
Hypothesis HB : (1 <= B)%nat.
Hypothesis Hlin : Linear_init (Z.of_nat (H * K)) (Z.of_nat (H * K)) w b = Ok lin.
Hypothesis Hw : shape w = [H * K; H * K]%nat.
Hypothesis Hb : shape b = [H * K]%nat.
Hypothesis Hdrop : Dropout_init p = Ok drop.

Lemma project_shape (attn : pyobj) (x : tensor R) :
  shape x = [B; S; H * K]%nat ->
  exists l,
    (y ← call draw lin x;
     h ← getattr (MultiHeadAttention_built H K lin attn drop) "h" ≫= as_int;
     d_k ← getattr (MultiHeadAttention_built H K lin attn drop) "d_k" ≫= as_int;
     v ← view y [Z.of_nat B; (-1)%Z; h; d_k];
     transpose 0%R v 1 2) = Ok (mkTensor [B; H; S; K] l).
Proof.
  intros Hx.
  destruct (Linear_object_call draw lin _ _ w b x B S (H * K) (H * K) Hlin Hw Hb Hx) as [ly ->].
  destruct (MultiHeadAttention_object_attrs (Z.of_nat H) (Z.of_nat K) [lin; lin; lin; lin] attn drop)
    as (Hh & Hdk & _ & _).
  unfold MultiHeadAttention_built. rewrite Hh, Hdk. cbn [mbind result_bind as_int].
  rewrite (view_split (mkTensor [B; S; H * K]%nat ly) B S H K eq_refl HB HH HK).
  cbn [mbind result_bind data].
  destruct (transpose_4 0%R (mkTensor [B; S; H; K] ly) B S H K eq_refl) as [[l ->] _].
  eexists. reflexivity.
Qed.

Lemma heads_shape (attn : pyobj) (query key value : tensor R) :
  shape query = [B; S; H * K]%nat -> shape key = [B; S; H * K]%nat ->
  shape value = [B; S; H * K]%nat ->
  exists l,
    MultiHeadAttention_heads draw (MultiHeadAttention_built H K lin attn drop) query key value None
    = ('(x, a) ← unpack2 (mkTensor [B; H; S; K] l); Ok (B, x, a)).
Proof.
  intros Hq Hk Hv. unfold MultiHeadAttention_heads, first_dim.
  rewrite Hq. cbn [mbind result_bind].
  destruct (MultiHeadAttention_object_attrs (Z.of_nat H) (Z.of_nat K) [lin; lin; lin; lin] attn drop)
    as (_ & _ & Hl & Hd).
  change (MultiHeadAttention_object _ _ _ _ _)
    with (MultiHeadAttention_built H K lin attn drop) in Hl, Hd.
  rewrite Hl, Hd. cbn [mbind result_bind iter zip zip_with mapM].
  destruct (project_shape attn query Hq) as [lq ->].
  destruct (project_shape attn key Hk) as [lk ->].
  destruct (project_shape attn value Hv) as [lv ->].
  cbn [mbind result_bind].
  destruct (attention_shape_4d draw (mkTensor [B; H; S; K] lq) (mkTensor [B; H; S; K] lk)
              (mkTensor [B; H; S; K] lv) p drop B H S K Hdrop eq_refl eq_refl eq_refl)
    as [l ->].
  cbn [mbind result_bind]. exists l. reflexivity.
Qed.


(** C6. The claim: [forward] maps [batch, seq, d_model] inputs to a result
    of the same shape, for every [h] dividing [d_model].  The code, on the
    object [__init__] would have built for [h] heads of width [d_k] (it
    cannot build it: [clone] raises), with inputs of shape
    (batch, seq, h * d_k): [attention] returns one tensor, of shape
    (batch, h, seq, d_k), and [x, self.attn = ...] unpacks it along the
    batch axis.  Any batch size but 2 ends in [ValueError]; a batch of 2
    comes out as (2, seq / 2, d_model) when [seq] is even and ends in the
    [RuntimeError] of [view] when it is odd. *)
Theorem MultiHeadAttention_forward_outcome (query key value : tensor R) :
  shape query = [B; S; H * K]%nat -> shape key = [B; S; H * K]%nat ->
  shape value = [B; S; H * K]%nat ->
  let r := snd (MultiHeadAttention_forward draw (MultiHeadAttention_built H K lin VNone drop) query key value None) in
  (B <> 2%nat -> exists msg, r = Raise (ValueError msg))
  /\ (B = 2%nat -> Nat.even S = true ->
      exists out, r = Ok out /\ shape out = [2; S / 2; H * K]%nat)
  /\ (B = 2%nat -> Nat.even S = false -> exists msg, r = Raise (RuntimeError msg)).
Proof.
  intros Hq Hk Hv. cbv zeta. unfold MultiHeadAttention_forward.
  destruct (heads_shape VNone query key value Hq Hk Hv) as [l ->].
  unfold unpack2. cbn [shape data].
  destruct (Nat.eqb_spec B 2) as [->|Hne].
  - cbn [mbind result_bind snd].
    set (x := mkTensor [H; S; K] (take (numel [H; S; K]) l)).
    set (self1 := setattr (MultiHeadAttention_built H K lin VNone drop) "attn" _).
    destruct (transpose_3 0%R x H S K eq_refl) as [lt Ht].
    assert (Hc : MultiHeadAttention_concat draw self1 2 x
                 = (v ← view (mkTensor [H; K; S] lt)
                      [2%Z; (-1)%Z; (Z.of_nat H * Z.of_nat K)%Z];
                    call draw lin v)).
    { unfold MultiHeadAttention_concat. rewrite Ht. cbn [mbind result_bind].
      destruct (MultiHeadAttention_object_attrs (Z.of_nat H) (Z.of_nat K)
                  [lin; lin; lin; lin] VNone drop) as (Hh & Hdk & Hl & _).
      unfold self1.
      rewrite <- !(agree_setattr (MultiHeadAttention_built H K lin VNone drop) _ "h") by discriminate.
      rewrite <- !(agree_setattr (MultiHeadAttention_built H K lin VNone drop) _ "d_k") by discriminate.
      rewrite <- !(agree_setattr (MultiHeadAttention_built H K lin VNone drop) _ "linears") by discriminate.
      unfold MultiHeadAttention_built. rewrite Hh, Hdk, Hl. reflexivity. }
    rewrite Hc, (view_merge (mkTensor [H; K; S] lt) H K S eq_refl HH HK). clear Hc.
    split; [congruence|]. split; intros _ E; rewrite E.
    + cbn [mbind result_bind data].
      destruct (Linear_object_call draw lin _ _ w b
                  (mkTensor [2; S / 2; H * K]%nat lt)
                  2 (S / 2) (H * K) (H * K) Hlin Hw Hb eq_refl) as [lo Ho].
      eexists. split; [exact Ho|reflexivity].
    + eexists. reflexivity.
  - split; [|split; intros ->; congruence].
    intros _. destruct (B <? 2)%nat; eexists; reflexivity.
Qed.

End Heads.

Lemma MultiHeadAttention_forward_outcome_witness :
  let self := MultiHeadAttention_built 1 1 unit_Linear VNone (Dropout_object 0.1 true) in
  let one := mkTensor [1; 1; 1]%nat [1%R] in
  let two := mkTensor [2; 2; 1]%nat [1%R; 2%R; 3%R; 4%R] in
  (exists msg, snd (MultiHeadAttention_forward (fun _ => 0%R) self one one one None)
               = Raise (ValueError msg))
  /\ (exists out, snd (MultiHeadAttention_forward (fun _ => 0%R) self two two two None) = Ok out
                  /\ shape out = [2; 1; 1]%nat).
Proof.
  intros self one two. split.
  - apply (MultiHeadAttention_forward_outcome (fun _ => 0%R) 1 1 1 1
             (mkTensor [1; 1]%nat [1%R]) (mkTensor [1%nat] [0%R]) 0.1
             unit_Linear (Dropout_object 0.1 true)
             ltac:(lia) ltac:(lia) ltac:(lia) eq_refl eq_refl eq_refl
             Dropout_object_init one one one eq_refl eq_refl eq_refl).
    lia.
  - apply (MultiHeadAttention_forward_outcome (fun _ => 0%R) 1 1 2 2
             (mkTensor [1; 1]%nat [1%R]) (mkTensor [1%nat] [0%R]) 0.1
             unit_Linear (Dropout_object 0.1 true)
             ltac:(lia) ltac:(lia) ltac:(lia) eq_refl eq_refl eq_refl
             Dropout_object_init two two two eq_refl eq_refl eq_refl);
      reflexivity.
Defined.

(** C9. With dropout disabled, [attention] and [MultiHeadAttention.forward]
    give the same result on the same inputs and parameters whatever the
    random draws of the two calls are: for [attention] with no dropout
    module or one of probability 0, and for [forward] on an object whose
    [linears] are linear layers and whose dropout has probability 0, where
    the second call runs on the object as the first one left it, [attn]
    included. *)
Theorem forward_deterministic_without_dropout (draw1 draw2 : nat -> R) :
  unit_draws draw1 ->
  unit_draws draw2 ->
  (forall query key value mask dropout,
      (dropout = None \/ exists drop, dropout = Some drop /\ dropout_off drop) ->
      attention draw1 query key value mask dropout
      = attention draw2 query key value mask dropout)
  /\ (forall self linears drop query key value mask,
        getattr self "linears" = Ok (VList linears) ->
        Forall is_Linear linears ->
        getattr self "dropout" = Ok drop ->
        dropout_off drop ->
        let first := MultiHeadAttention_forward draw1 self query key value mask in
        let second := MultiHeadAttention_forward draw2 (fst first) query key value mask in
        snd first = snd second).
Proof.
  intros H1 H2. split.
  - intros query key value mask dropout Hoff.
    apply attention_draws; [exact H1|exact H2|].
    intros drop ->. destruct Hoff as [?|(d & [= <-] & Hd)]; [discriminate|exact Hd].
  - intros self linears drop query key value mask Hlin Hall Hdrop Hoff.
    cbv zeta. unfold MultiHeadAttention_forward.
    destruct (MultiHeadAttention_heads draw1 self query key value mask)
      as [[[nb x] attn]|e] eqn:Hheads.
    + cbn [fst snd].
      rewrite <- (heads_two_runs draw1 draw2 H1 H2 self
                    (setattr self "attn" (VTensor attn)) linears drop
                    query key value mask (agree_setattr self _) Hlin Hall Hdrop Hoff).
      rewrite Hheads. cbn [snd].
      apply (concat_two_runs draw1 draw2 _ _ linears).
      * apply agree_setattr.
      * rewrite <- (agree_setattr self (VTensor attn) "linears") by discriminate.
        exact Hlin.
      * exact Hall.
    + cbn [fst snd].
      rewrite <- (heads_two_runs draw1 draw2 H1 H2 self self linears drop
                    query key value mask (fun _ _ => eq_refl) Hlin Hall Hdrop Hoff).
      now rewrite Hheads.
Qed.

Lemma forward_deterministic_without_dropout_witness :
  let draw1 := fun _ : nat => 0%R in
  let draw2 := fun _ : nat => (1 / 2)%R in
  let off := Dropout_object 0 true in
  let linears := [unit_Linear; unit_Linear; unit_Linear; unit_Linear] in
  let self := MultiHeadAttention_object 1 1 linears VNone off in
  let two := mkTensor [2; 2; 1]%nat [1%R; 2%R; 3%R; 4%R] in
  let m := mkTensor [2; 1]%nat [1%R; 2%R] in
  attention draw1 m m m None (Some off) = attention draw2 m m m None (Some off)
  /\ snd (MultiHeadAttention_forward draw1 self two two two None)
     = snd (MultiHeadAttention_forward draw2
              (fst (MultiHeadAttention_forward draw1 self two two two None))
              two two two None).
Proof.
  intros draw1 draw2 off linears self two m.
  assert (Hoff : dropout_off off).
  { eexists. split; [reflexivity|].
    rewrite lookup_insert_ne by discriminate. apply lookup_insert_eq. }
  destruct (forward_deterministic_without_dropout draw1 draw2) as [Ha Hf].
  - intros k. unfold draw1. lra.
  - intros k. unfold draw2. lra.
  - split.
    + apply Ha. right. exists off. split; [reflexivity|exact Hoff].
    + apply (Hf self linears off two two two None).
      * vm_compute. reflexivity.
      * repeat constructor; eexists; reflexivity.
      * vm_compute. reflexivity.
      * exact Hoff.
Defined.

(** * Further properties of the notebook's code *)

(** ** Constructors *)

(** X1. [clone] never returns: whatever module and count it is given, an
    integer count included, its assertion stops at the name [numbers]
    before the count is looked at. *)
Theorem clone_never_returns (module_to_clone num_of_clones : pyobj) :
  clone module_to_clone num_of_clones = Raise (NameError "numbers")
  /\ clone module_to_clone num_of_clones <> Raise AssertionError
  /\ is_ok (clone module_to_clone num_of_clones) = false.
Proof.
  assert (H : clone module_to_clone num_of_clones = Raise (NameError "numbers")).
  { unfold clone. now rewrite numbers_unbound. }
  rewrite H. repeat split. discriminate.
Qed.

(** X2. [Sublayer(size, dropout)] succeeds exactly when [size >= 0] and
    [0 <= dropout <= 1].  A negative size is reported first, as the
    [RuntimeError] of [torch.ones]; a dropout outside [0, 1] is the
    [ValueError] of [nn.Dropout].  The instance holds a [LayerNorm] with
    [eps = 1e-6], [gamma] all ones and [beta] all zeros of length [size],
    and a [Dropout] of probability [dropout] in training mode. *)
Theorem Sublayer_init_outcome (size : Z) (dropout : R) :
  Sublayer_init size dropout
  = if (size <? 0)%Z
    then Raise (RuntimeError "Trying to create tensor with negative dimension")
    else if Rlt_dec dropout 0
    then Raise (ValueError "dropout probability has to be between 0 and 1")
    else if Rlt_dec 1 dropout
    then Raise (ValueError "dropout probability has to be between 0 and 1")
    else Ok (VObject "Sublayer"
               (<["dropout" := Dropout_object dropout true]>
                  (<["layernorm" :=
                       VObject "LayerNorm"
                         (<["beta" := VTensor (full 0%R [Z.to_nat size])]>
                            (<["gamma" := VTensor (full 1%R [Z.to_nat size])]>
                               (<["eps" := VFloat 1e-6]> {[ "training" := VBool true ]})))]>
                     {[ "training" := VBool true ]}))).
Proof.
  unfold Sublayer_init, LayerNorm_init, ones, zeros, filled, Dropout_init.
  cbn [forallb andb]. rewrite Z.ltb_antisym.
  destruct (0 <=? size)%Z; cbn [negb andb mbind result_bind]; [|reflexivity].
  destruct (Rlt_dec dropout 0); [reflexivity|].
  destruct (Rlt_dec 1 dropout); reflexivity.
Qed.

(** X3. No [EncoderLayer] and no [DecoderLayer] can be built: when the
    arguments are such that [Sublayer(size, dropout)] fails, its exception
    comes out; when they are valid, [clone] raises [NameError]. *)
Theorem layer_constructors_raise (size : Z) (a1 a2 ff : pyobj) (dropout : R) :
  EncoderLayer_init size a1 ff dropout
  = match Sublayer_init size dropout with
    | Ok _ => Raise (NameError "numbers")
    | Raise e => Raise e
    end
  /\ DecoderLayer_init size a1 a2 ff dropout
     = match Sublayer_init size dropout with
       | Ok _ => Raise (NameError "numbers")
       | Raise e => Raise e
       end
  /\ is_ok (EncoderLayer_init size a1 ff dropout) = false
  /\ is_ok (DecoderLayer_init size a1 a2 ff dropout) = false.
Proof.
  unfold EncoderLayer_init, DecoderLayer_init.
  destruct (Sublayer_init size dropout) as [s|e]; cbn [mbind result_bind].
  - unfold clone. rewrite numbers_unbound. repeat split.
  - repeat split.
Qed.

(** ** [Generator] *)

Lemma layer_not_a_member : bool_decide ("layer" ∈ nn_Module_members) = false.
Proof. vm_compute. reflexivity. Qed.

(** X4. [Generator.forward] raises [AttributeError] on every instance that
    [__init__] builds and on every input: it applies [self.layer], while
    [__init__] stored the linear map as [self.linear]; the log-softmax is
    never reached. *)
Theorem Generator_forward_raises (draw : nat -> R) (model_dims vocab_size : Z)
    (weight bias : tensor R) (self : pyobj) (x : tensor R) :
  Generator_init model_dims vocab_size weight bias = Ok self ->
  Generator_forward draw self x = Raise (AttributeError "Generator" "layer")
  /\ (exists linear, getattr self "linear" = Ok linear /\ is_Linear linear).
Proof.
  unfold Generator_init, Linear_init. intros H.
  destruct (_ || _); [discriminate|]. cbn [mbind result_bind] in H.
  injection H as <-. unfold Module_init, LogSoftmax_init. cbn [setattr]. split.
  - unfold Generator_forward.
    rewrite (getattr_setattr _ _ _ "softmax"), decide_True by reflexivity.
    cbn [mbind result_bind].
    rewrite !getattr_setattr, !decide_False by discriminate.
    rewrite getattr_missing; [reflexivity| |apply layer_not_a_member].
    vm_compute. reflexivity.
  - eexists. split.
    + rewrite getattr_setattr, decide_False by discriminate.
      rewrite getattr_setattr, decide_True by reflexivity. reflexivity.
    + eexists. reflexivity.
Qed.

Lemma Generator_forward_raises_witness :
  exists self,
    Generator_init 1 1 (mkTensor [1; 1]%nat [1%R]) (mkTensor [1%nat] [0%R]) = Ok self
    /\ Generator_forward (fun _ => 0%R) self (mkTensor [1; 1; 1]%nat [1%R])
       = Raise (AttributeError "Generator" "layer").
Proof.
  assert (H : exists self,
             Generator_init 1 1 (mkTensor [1; 1]%nat [1%R]) (mkTensor [1%nat] [0%R]) = Ok self).
  { eexists. reflexivity. }
  destruct H as [self H]. exists self. split; [exact H|].
  apply (Generator_forward_raises (fun _ => 0%R) 1 1 _ _ self (mkTensor [1; 1; 1]%nat [1%R]) H).
Defined.

(** ** [attention] on matrices *)

Lemma broadcast_shapes_diag (s : list nat) : broadcast_shapes s s = Ok s.
Proof.
  unfold broadcast_shapes. now rewrite broadcast_rev_diag, rev_involutive.
Qed.

Lemma matmul_2d (a b : tensor R) (n m p : nat) :
  shape a = [n; m] -> shape b = [m; p] ->
  matmul a b
  = Ok (mkTensor [n; p]
          (map (fun k =>
                  rsum (map (fun l => (nth (ravel [n; m] [nth 0 (unravel [n; p] k) 0%nat; l])
                                           (data a) 0
                                       * nth (ravel [m; p] [l; nth 1 (unravel [n; p] k) 0%nat])
                                           (data b) 0)%R)
                            (seq 0 m)))
               (seq 0 (numel [n; p])))).
Proof.
  intros Ha Hb. unfold matmul. rewrite Ha, Hb.
  cbn [length Nat.eqb Nat.sub take firstn nth app].
  rewrite Nat.eqb_refl.
  cbn [broadcast_shapes rev app broadcast_rev mbind result_bind length take firstn
       bidx drop zip_with].
  reflexivity.
Qed.

Lemma matmul_2d_entry (a b : tensor R) (n m p i c : nat) :
  shape a = [n; m] -> shape b = [m; p] -> (i < n)%nat -> (c < p)%nat ->
  exists out,
    matmul a b = Ok out /\ shape out = [n; p] /\ length (data out) = (n * p)%nat
    /\ tget out [i; c]
       = Some (rsum (map (fun l => (nth (i * m + l) (data a) 0
                                    * nth (l * p + c) (data b) 0)%R) (seq 0 m))).
Proof.
  intros Ha Hb Hi Hc. rewrite (matmul_2d a b n m p Ha Hb).
  eexists. split; [reflexivity|]. split; [reflexivity|]. split.
  - cbn [data]. rewrite length_map, length_seq. cbn [numel foldr]. lia.
  - unfold tget. cbn [shape data in_bounds].
    replace (i <? n)%nat with true by (symmetry; apply Nat.ltb_lt; exact Hi).
    replace (c <? p)%nat with true by (symmetry; apply Nat.ltb_lt; exact Hc).
    cbn [andb ravel numel foldr]. rewrite lookup_map.
    replace (i * (p * 1) + (c * 1 + 0))%nat with (i * p + c)%nat by lia.
    rewrite lookup_seq_lt by nia.
    cbn [fmap option_fmap option_map Nat.add]. f_equal.
    rewrite unravel_2 by exact Hc. cbn [nth].
    apply rsum_ext. intros l Hl. f_equal; f_equal; cbn [ravel numel foldr]; lia.
Qed.

Lemma matmul_2d_length (a b : tensor R) (n m p : nat) :
  shape a = [n; m] -> shape b = [m; p] ->
  exists l, matmul a b = Ok (mkTensor [n; p] l) /\ length l = (n * p)%nat.
Proof.
  intros Ha Hb. rewrite (matmul_2d a b n m p Ha Hb). eexists. split; [reflexivity|].
  rewrite length_map, length_seq. cbn [numel foldr]. lia.
Qed.

Lemma transpose_2d (t : tensor R) (m d : nat) :
  shape t = [m; d] ->
  exists l, transpose 0%R t (-2) (-1) = Ok (mkTensor [d; m] l).
Proof.
  intros H. unfold transpose. rewrite H. cbn [length].
  change (norm_dim 2 (-2)) with (Ok 0%nat : result nat).
  change (norm_dim 2 (-1)) with (Ok 1%nat : result nat).
  cbn [mbind result_bind]. change (swap [m; d] 0 1) with [d; m].
  eexists. reflexivity.
Qed.

Lemma attention_scores_matrix (query key : tensor R) (n m d : nat) :
  shape query = [n; d] -> shape key = [m; d] ->
  exists l, attention_scores query key = Ok (mkTensor [n; m] l) /\ length l = (n * m)%nat.
Proof.
  intros Hq Hk. unfold attention_scores, last_dim. rewrite Hq.
  cbn [last mbind result_bind].
  destruct (transpose_2d key m d Hk) as [lk ->]. cbn [mbind result_bind].
  destruct (matmul_2d_length query (mkTensor [d; m] lk) n d m Hq eq_refl) as (l & -> & Hl).
  cbn [mbind result_bind]. unfold div_scalar, tmap. cbn [shape data].
  eexists. split; [reflexivity|]. now rewrite length_map.
Qed.

Lemma attention_weights_matrix (query key : tensor R) (mask : option (tensor bool))
    (n m d : nat) :
  shape query = [n; d] -> shape key = [m; d] -> mask_fits mask n m ->
  exists x,
    length (data x) = (n * m)%nat /\ shape x = [n; m]
    /\ attention_weights query key mask = Ok (softmax x).
Proof.
  intros Hq Hk Hm. unfold attention_weights.
  destruct (attention_scores_matrix query key n m d Hq Hk) as (l & -> & Hl).
  cbn [mbind result_bind]. destruct mask as [mk|].
  - unfold masked_fill, binop, mask_eq0, tmap. cbn [shape].
    rewrite (Hm mk eq_refl), broadcast_shapes_diag. cbn [mbind result_bind].
    eexists. split; [|split; [|reflexivity]]; cbn [shape data]; [|reflexivity].
    rewrite length_map, length_seq. cbn [numel foldr]. lia.
  - eexists. split; [|split; [|reflexivity]]; [exact Hl|reflexivity].
Qed.





(** X6. On an n-by-d query, an m-by-d key and an m-by-dv value, with no
    mask or an n-by-m one and with no dropout or any [nn.Dropout] module,
    [attention] returns an n-by-dv tensor with one entry per index. *)
Theorem attention_output_shape (draw : nat -> R) (query key value : tensor R)
    (mask : option (tensor bool)) (dropout : option pyobj) (n m d dv : nat) :
  shape query = [n; d] -> shape key = [m; d] -> shape value = [m; dv] ->
  mask_fits mask n m -> dropout_fits dropout ->
  exists out,
    attention draw query key value mask dropout = Ok out
    /\ shape out = [n; dv] /\ wf out.
Proof.
  intros Hq Hk Hv Hm Hd. unfold attention.
  destruct (attention_weights_matrix query key mask n m d Hq Hk Hm) as (x & Hl & Hs & ->).
  cbn [mbind result_bind].
  assert (Hx : exists y, shape y = [n; m]
             /\ match dropout with
                | Some d0 => call draw d0 (softmax x)
                | None => Ok (softmax x)
                end = Ok y).
  { destruct dropout as [drop|].
    - destruct (Hd drop eq_refl) as [p Hp].
      destruct (Dropout_call draw p drop (softmax x) Hp) as [l ->].
      eexists. split; [|reflexivity]. cbn [shape softmax]. exact Hs.
    - eexists. split; [|reflexivity]. cbn [shape softmax]. exact Hs. }
  destruct Hx as (y & Hy & ->). cbn [mbind result_bind].
  destruct (matmul_2d_length y value n m dv Hy Hv) as (l & -> & Hlen).
  eexists. split; [reflexivity|]. split; [reflexivity|].
  unfold wf. cbn [shape data numel foldr]. lia.
Qed.

Lemma attention_output_shape_witness :
  let query := mkTensor [1; 1]%nat [0%R] in
  let key := mkTensor [2; 1]%nat [0%R; 0%R] in
  let value := mkTensor [2; 3]%nat [1%R; 2%R; 3%R; 4%R; 5%R; 6%R] in
  let mask := mkTensor [1; 2]%nat [true; false] in
  exists out,
    attention (fun _ => 0%R) query key value (Some mask) (Some (Dropout_object 0.1 true))
    = Ok out /\ shape out = [1; 3]%nat.
Proof.
  intros query key value mask.
  destruct (attention_output_shape (fun _ => 0%R) query key value (Some mask)
              (Some (Dropout_object 0.1 true)) 1 2 1 3 eq_refl eq_refl eq_refl)
    as (out & Ho & Hs & _).
  - intros mk [= <-]. reflexivity.
  - intros drop [= <-]. exists 0.1%R. apply Dropout_object_init.
  - exists out. split; [exact Ho|exact Hs].
Defined.

(** X7. [attention] rejects matrices that do not fit: a key whose width
    differs from the query's, or a value with another number of rows than
    the key, ends in the [RuntimeError] of [torch.matmul]. *)
Theorem attention_shape_mismatch (draw : nat -> R) (query key value : tensor R)
    (n m d d' m' dv : nat) :
  shape query = [n; d] -> shape key = [m; d'] -> shape value = [m'; dv] ->
  d <> d' \/ m <> m' ->
  attention draw query key value None None
  = Raise (RuntimeError "mat1 and mat2 shapes cannot be multiplied").
Proof.
  intros Hq Hk Hv Hne. unfold attention, attention_weights.
  destruct (Nat.eq_dec d d') as [<-|Hd].
  - destruct Hne as [?|Hm]; [congruence|].
    destruct (attention_scores_matrix query key n m d Hq Hk) as (l & -> & _).
    cbn [mbind result_bind]. unfold matmul. cbn [shape softmax]. rewrite Hv.
    cbn [length Nat.eqb Nat.sub take firstn nth app].
    apply Nat.eqb_neq in Hm. now rewrite Hm.
  - unfold attention_scores, last_dim. rewrite Hq. cbn [last mbind result_bind].
    destruct (transpose_2d key m d' Hk) as [lk ->]. cbn [mbind result_bind].
    unfold matmul. cbn [shape]. rewrite Hq.
    cbn [length Nat.eqb Nat.sub take firstn nth app].
    apply Nat.eqb_neq in Hd. now rewrite Hd.
Qed.

Lemma attention_shape_mismatch_witness :
  attention (fun _ => 0%R) (mkTensor [1; 2]%nat [1%R; 2%R])
    (mkTensor [1; 3]%nat [1%R; 2%R; 3%R]) (mkTensor [1; 1]%nat [1%R]) None None
  = Raise (RuntimeError "mat1 and mat2 shapes cannot be multiplied").
Proof.
  apply (attention_shape_mismatch (fun _ => 0%R) (mkTensor [1; 2]%nat [1%R; 2%R])
           (mkTensor [1; 3]%nat [1%R; 2%R; 3%R]) (mkTensor [1; 1]%nat [1%R])
           1 1 2 3 1 1 eq_refl eq_refl eq_refl).
  left. lia.
Defined.

(** X8. A mask whose key axis matches neither the number of keys nor 1 is
    rejected where it is used: [masked_fill] raises [RuntimeError], and so
    does [attention]. *)
Theorem attention_mask_mismatch (draw : nat -> R) (query key value : tensor R)
    (mask : tensor bool) (dropout : option pyobj) (n m d a b : nat) :
  shape query = [n; d] -> shape key = [m; d] -> shape mask = [a; b] ->
  b <> m -> b <> 1%nat -> m <> 1%nat ->
  attention_weights query key (Some mask) = Raise (RuntimeError "shapes cannot be broadcast")
  /\ attention draw query key value (Some mask) dropout
     = Raise (RuntimeError "shapes cannot be broadcast").
Proof.
  intros Hq Hk Hm Hbm Hb1 Hm1.
  assert (H : attention_weights query key (Some mask)
              = Raise (RuntimeError "shapes cannot be broadcast")).
  { unfold attention_weights.
    destruct (attention_scores_matrix query key n m d Hq Hk) as (l & -> & _).
    cbn [mbind result_bind]. unfold masked_fill, binop, mask_eq0, tmap. cbn [shape].
    rewrite Hm. unfold broadcast_shapes. cbn [rev app broadcast_rev].
    assert (E1 : (m =? b)%nat = false) by (apply Nat.eqb_neq; congruence).
    assert (E2 : (m =? 1)%nat = false) by (apply Nat.eqb_neq; congruence).
    assert (E3 : (b =? 1)%nat = false) by (apply Nat.eqb_neq; congruence).
    rewrite E1, E2, E3.
    destruct (n =? a)%nat, (n =? 1)%nat, (a =? 1)%nat; reflexivity. }
  split; [exact H|]. unfold attention. now rewrite H.
Qed.

Lemma attention_mask_mismatch_witness :
  attention (fun _ => 0%R) (mkTensor [1; 1]%nat [0%R]) (mkTensor [2; 1]%nat [0%R; 0%R])
    (mkTensor [2; 1]%nat [1%R; 2%R])
    (Some (mkTensor [1; 3]%nat [true; true; false])) None
  = Raise (RuntimeError "shapes cannot be broadcast").
Proof.
  apply (attention_mask_mismatch (fun _ => 0%R) (mkTensor [1; 1]%nat [0%R])
           (mkTensor [2; 1]%nat [0%R; 0%R]) (mkTensor [2; 1]%nat [1%R; 2%R])
           (mkTensor [1; 3]%nat [true; true; false]) None 1 2 1 1 3
           eq_refl eq_refl eq_refl); lia.
Defined.

(** X9. Without dropout, each output row of [attention] is the sum of the
    value rows weighted by that query's attention weights:
    [out[i][c] = sum_j weights[i][j] * value[j][c]]. *)
Theorem attention_output_weighted_sum (draw : nat -> R) (query key value : tensor R)
    (mask : option (tensor bool)) (n m d dv i c : nat) :
  shape query = [n; d] -> shape key = [m; d] -> shape value = [m; dv] ->
  mask_fits mask n m -> (i < n)%nat -> (c < dv)%nat ->
  exists w out,
    attention_weights query key mask = Ok w
    /\ attention draw query key value mask None = Ok out
    /\ tget out [i; c]
       = Some (rsum (map (fun j => (nth (i * m + j) (data w) 0
                                    * nth (j * dv + c) (data value) 0)%R) (seq 0 m))).
Proof.
  intros Hq Hk Hv Hm Hi Hc. unfold attention.
  destruct (attention_weights_matrix query key mask n m d Hq Hk Hm) as (x & Hl & Hs & ->).
  cbn [mbind result_bind].
  destruct (matmul_2d_entry (softmax x) value n m dv i c Hs Hv Hi Hc)
    as (out & Ho & _ & _ & He).
  exists (softmax x), out. split; [reflexivity|]. split; [exact Ho|exact He].
Qed.

Lemma attention_output_weighted_sum_witness :
  let query := mkTensor [1; 1]%nat [0%R] in
  let key := mkTensor [2; 1]%nat [0%R; 0%R] in
  let value := mkTensor [2; 1]%nat [1%R; 2%R] in
  exists w out,
    attention_weights query key None = Ok w
    /\ attention (fun _ => 0%R) query key value None None = Ok out
    /\ tget out [0; 0]%nat
       = Some (nth 0 (data w) 0 * 1 + (nth 1 (data w) 0 * 2 + 0))%R.
Proof.
  intros query key value.
  destruct (attention_output_weighted_sum (fun _ => 0%R) query key value None 1 2 1 1 0 0
              eq_refl eq_refl eq_refl)
    as (w & out & Hw & Ho & He).
  - intros mk [=].
  - lia.
  - lia.
  - exists w, out. split; [exact Hw|]. split; [exact Ho|exact He].
Defined.

(** ** [MultiHeadAttention.forward]: the object, the mask, the width *)

Lemma masked_fill_heads (x : tensor R) (mk : tensor bool) (B H S : nat) :
  shape x = [B; H; S; S] -> shape mk = [1; S; S]%nat ->
  exists l, masked_fill x (mask_eq0 mk) mask_fill_value = Ok (mkTensor [B; H; S; S] l).
Proof.
  intros Hx Hm. apply binop_shape. unfold mask_eq0, tmap. cbn [shape].
  rewrite Hx, Hm. unfold broadcast_shapes. cbn [rev app broadcast_rev].
  cbn [mbind option_bind]. rewrite !Nat.eqb_refl.
  destruct (H =? 1)%nat; reflexivity.
Qed.

Lemma masked_fill_per_batch (x : tensor R) (mk : tensor bool) (B H S : nat) :
  shape x = [B; H; S; S] -> shape mk = [B; S; S] ->
  B <> H -> B <> 1%nat -> H <> 1%nat ->
  masked_fill x (mask_eq0 mk) mask_fill_value
  = Raise (RuntimeError "shapes cannot be broadcast").
Proof.
  intros Hx Hm HBH HB1 HH1. unfold masked_fill, binop, mask_eq0, tmap. cbn [shape].
  rewrite Hx, Hm. unfold broadcast_shapes. cbn [rev app broadcast_rev].
  cbn [mbind option_bind].
  assert (E1 : (H =? B)%nat = false) by (apply Nat.eqb_neq; congruence).
  assert (E2 : (H =? 1)%nat = false) by (apply Nat.eqb_neq; congruence).
  assert (E3 : (B =? 1)%nat = false) by (apply Nat.eqb_neq; congruence).
  rewrite E1, E2, E3. reflexivity.
Qed.

Lemma Linear_width_mismatch (draw : nat -> R) (lin : pyobj) (i o : Z) (w b x : tensor R)
    (B S D D' E : nat) :
  Linear_init i o w b = Ok lin ->
  shape w = [E; D] -> shape x = [B; S; D'] -> D' <> D ->
  call draw lin x = Raise (RuntimeError "mat1 and mat2 shapes cannot be multiplied").
Proof.
  unfold Linear_init. intros Hlin Hw Hx Hne.
  destruct (_ || _); [discriminate|]. injection Hlin as <-.
  unfold Module_init. cbn [setattr call].
  change (String.eqb "Linear" "LayerNorm") with false.
  change (String.eqb "Linear" "Dropout") with false.
  change (String.eqb "Linear" "Linear") with true. cbv iota.
  unfold Linear_forward.
  rewrite (getattr_setattr _ _ _ "weight"), decide_False by discriminate.
  rewrite (getattr_setattr _ _ _ "weight"), decide_True by reflexivity.
  rewrite (getattr_setattr _ _ _ "bias"), decide_True by reflexivity.
  cbn [mbind result_bind as_tensor].
  destruct (transpose_2 0%R w E D Hw) as [lw ->]. cbn [mbind result_bind].
  unfold matmul. cbn [shape]. rewrite Hx.
  cbn [length Nat.eqb Nat.sub take firstn nth app].
  apply Nat.eqb_neq in Hne. now rewrite Hne.
Qed.

Lemma attention_scores_heads (query key : tensor R) (B H S K : nat) :
  shape query = [B; H; S; K] -> shape key = [B; H; S; K] ->
  exists l, attention_scores query key = Ok (mkTensor [B; H; S; S] l).
Proof.
  intros Hq Hk. unfold attention_scores, last_dim. rewrite Hq.
  cbn [last mbind result_bind].
  destruct (transpose_4 0%R key B H S K Hk) as [_ [lk ->]]. cbn [mbind result_bind].
  destruct (matmul_4_4 query (mkTensor [B; H; K; S] lk) B H S K S Hq eq_refl) as [ls ->].
  cbn [mbind result_bind]. eexists. reflexivity.
Qed.

Lemma attention_heads_masked (draw : nat -> R) (query key value : tensor R)
    (mk : tensor bool) (p : R) (drop : pyobj) (B H S K : nat) :
  Dropout_init p = Ok drop ->
  shape query = [B; H; S; K] -> shape key = [B; H; S; K] -> shape value = [B; H; S; K] ->
  shape mk = [1; S; S]%nat ->
  exists l, attention draw query key value (Some mk) (Some drop) = Ok (mkTensor [B; H; S; K] l).
Proof.
  intros Hdrop Hq Hk Hv Hm. unfold attention, attention_weights.
  destruct (attention_scores_heads query key B H S K Hq Hk) as [ls ->].
  cbn [mbind result_bind].
  destruct (masked_fill_heads (mkTensor [B; H; S; S] ls) mk B H S eq_refl Hm) as [lm ->].
  cbn [mbind result_bind].
  destruct (Dropout_call draw p drop (softmax (mkTensor [B; H; S; S] lm)) Hdrop) as [ld ->].
  cbn [mbind result_bind shape softmax].
  eapply matmul_4_4; [reflexivity|exact Hv].
Qed.

Lemma attention_heads_per_batch (draw : nat -> R) (query key value : tensor R)
    (mk : tensor bool) (dropout : option pyobj) (B H S K : nat) :
  shape query = [B; H; S; K] -> shape key = [B; H; S; K] ->
  shape mk = [B; S; S] -> B <> H -> B <> 1%nat -> H <> 1%nat ->
  attention draw query key value (Some mk) dropout
  = Raise (RuntimeError "shapes cannot be broadcast").
Proof.
  intros Hq Hk Hm HBH HB1 HH1. unfold attention, attention_weights.
  destruct (attention_scores_heads query key B H S K Hq Hk) as [ls ->].
  cbn [mbind result_bind].
  now rewrite (masked_fill_per_batch (mkTensor [B; H; S; S] ls) mk B H S eq_refl Hm HBH HB1 HH1).
Qed.

Section Instance.

Variables (draw : nat -> R) (H K B S : nat) (w b : tensor R) (p : R) (lin drop : pyobj).
Hypothesis HH : (1 <= H)%nat.
Hypothesis HK : (1 <= K)%nat.
Hypothesis HB : (1 <= B)%nat.
Hypothesis Hlin : Linear_init (Z.of_nat (H * K)) (Z.of_nat (H * K)) w b = Ok lin.
Hypothesis Hw : shape w = [H * K; H * K]%nat.
Hypothesis Hb : shape b = [H * K]%nat.
Hypothesis Hdrop : Dropout_init p = Ok drop.

(** X10. What [forward] leaves in [self.attn]: with a batch of 2 the
    unpacking succeeds and [self.attn] is set to a tensor of shape
    (h, seq, d_k), no other attribute changing, also when the call then
    fails in [view]; with any other batch size the object is left as it
    was and [self.attn] stays [None]. *)
Theorem MultiHeadAttention_forward_attn (query key value : tensor R) :
  shape query = [B; S; H * K]%nat -> shape key = [B; S; H * K]%nat ->
  shape value = [B; S; H * K]%nat ->
  let self := MultiHeadAttention_built H K lin VNone drop in
  let self' := fst (MultiHeadAttention_forward draw self query key value None) in
  (B <> 2%nat -> self' = self /\ getattr self' "attn" = Ok VNone)
  /\ (B = 2%nat ->
      exists a, self' = setattr self "attn" (VTensor a)
                /\ getattr self' "attn" = Ok (VTensor a)
                /\ shape a = [H; S; K]
                /\ agree self self').
Proof.
  intros Hq Hk Hv. cbv zeta. unfold MultiHeadAttention_forward.
  destruct (heads_shape draw H K B S w b p lin drop HH HK HB Hlin Hw Hb Hdrop
              VNone query key value Hq Hk Hv) as [l ->].
  unfold unpack2. cbn [shape data].
  destruct (Nat.eqb_spec B 2) as [->|Hne].
  - cbn [mbind result_bind fst]. split; [congruence|]. intros _.
    eexists. split; [reflexivity|]. split; [|split; [reflexivity|apply agree_setattr]].
    unfold MultiHeadAttention_built, MultiHeadAttention_object, Module_init.
    cbn [setattr]. now rewrite getattr_setattr, decide_True.
  - split; [|congruence]. intros _.
    assert (E : fst (match (if (B <? 2)%nat
                            then Raise (ValueError "not enough values to unpack (expected 2)")
                            else Raise (ValueError "too many values to unpack (expected 2)"))
                           ≫= (fun '(x, a) => Ok (B, x, a)) with
                     | Ok (num_batches, x, attn) =>
                         (setattr (MultiHeadAttention_built H K lin VNone drop) "attn"
                            (VTensor attn),
                          MultiHeadAttention_concat draw
                            (setattr (MultiHeadAttention_built H K lin VNone drop) "attn"
                               (VTensor attn)) num_batches x)
                     | Raise e => (MultiHeadAttention_built H K lin VNone drop, Raise e)
                     end) = MultiHeadAttention_built H K lin VNone drop).
    { destruct (B <? 2)%nat; reflexivity. }
    rewrite E. split; [reflexivity|].
    unfold MultiHeadAttention_built, MultiHeadAttention_object, Module_init.
    cbn [setattr]. rewrite getattr_setattr, decide_False by discriminate.
    now rewrite getattr_setattr, decide_True.
Qed.


Lemma heads_projected (attn : pyobj) (query key value : tensor R)
    (mask : option (tensor bool)) (a : nat) :
  shape query = [B; S; H * K]%nat -> shape key = [B; S; H * K]%nat ->
  shape value = [B; S; H * K]%nat ->
  (forall mk, mask = Some mk -> shape mk = [a; S; S]) ->
  exists q k v,
    shape q = [B; H; S; K] /\ shape k = [B; H; S; K] /\ shape v = [B; H; S; K]
    /\ MultiHeadAttention_heads draw (MultiHeadAttention_built H K lin attn drop)
         query key value mask
       = (out ← attention draw q k v mask (Some drop);
          '(x, a) ← unpack2 out; Ok (B, x, a)).
Proof.
  intros Hq Hk Hv Hm. unfold MultiHeadAttention_heads, first_dim.
  assert (Hu : match mask with
               | Some m => _ ← unsqueeze m 1; Ok tt
               | None => Ok tt
               end = Ok tt).
  { destruct mask as [mk|]; [|reflexivity]. unfold unsqueeze.
    rewrite (Hm mk eq_refl). reflexivity. }
  rewrite Hu, Hq. cbn [mbind result_bind].
  destruct (MultiHeadAttention_object_attrs (Z.of_nat H) (Z.of_nat K) [lin; lin; lin; lin] attn drop)
    as (_ & _ & Hl & Hd).
  change (MultiHeadAttention_object _ _ _ _ _)
    with (MultiHeadAttention_built H K lin attn drop) in Hl, Hd.
  rewrite Hl, Hd. cbn [mbind result_bind iter zip zip_with mapM].
  destruct (project_shape draw H K B S w b lin drop HH HK HB Hlin Hw Hb attn query Hq) as [lq ->].
  destruct (project_shape draw H K B S w b lin drop HH HK HB Hlin Hw Hb attn key Hk) as [lk ->].
  destruct (project_shape draw H K B S w b lin drop HH HK HB Hlin Hw Hb attn value Hv) as [lv ->].
  cbn [mbind result_bind].
  exists (mkTensor [B; H; S; K] lq), (mkTensor [B; H; S; K] lk), (mkTensor [B; H; S; K] lv).
  repeat split.
Qed.

(** X11. The mask and the head axis.  [forward] discards the result of
    [mask.unsqueeze(1)], so the mask meets the scores of shape
    (batch, h, seq, seq) as it was passed.  A mask of shape (1, seq, seq),
    as [forward_mask] makes it, broadcasts over batch and heads, and the
    call goes on to the unpacking (a [ValueError] unless the batch is 2).
    A mask of shape (batch, seq, seq) has its batch axis matched against
    the head axis: when batch and [h] differ and neither is 1, the call
    ends in the [RuntimeError] of [masked_fill] and the object is left as
    it was. *)
Theorem MultiHeadAttention_forward_mask (query key value : tensor R) (mask : tensor bool) :
  shape query = [B; S; H * K]%nat -> shape key = [B; S; H * K]%nat ->
  shape value = [B; S; H * K]%nat ->
  let self := MultiHeadAttention_built H K lin VNone drop in
  let r := MultiHeadAttention_forward draw self query key value (Some mask) in
  (shape mask = [1; S; S]%nat -> B <> 2%nat -> exists msg, snd r = Raise (ValueError msg))
  /\ (shape mask = [B; S; S] -> B <> H -> B <> 1%nat -> H <> 1%nat ->
      r = (self, Raise (RuntimeError "shapes cannot be broadcast"))).
Proof.
  intros Hq Hk Hv. cbv zeta. unfold MultiHeadAttention_forward. split.
  - intros Hm Hne.
    destruct (heads_projected VNone query key value (Some mask) 1 Hq Hk Hv)
      as (q & k & v & Hsq & Hsk & Hsv & ->).
    { intros mk [= <-]. exact Hm. }
    destruct (attention_heads_masked draw q k v mask p drop B H S K Hdrop Hsq Hsk Hsv Hm)
      as [l ->].
    cbn [mbind result_bind]. unfold unpack2. cbn [shape].
    apply Nat.eqb_neq in Hne. rewrite Hne.
    destruct (B <? 2)%nat; eexists; reflexivity.
  - intros Hm HBH HB1 HH1.
    destruct (heads_projected VNone query key value (Some mask) B Hq Hk Hv)
      as (q & k & v & Hsq & Hsk & Hsv & ->).
    { intros mk [= <-]. exact Hm. }
    now rewrite (attention_heads_per_batch draw q k v mask (Some drop) B H S K
                   Hsq Hsk Hm HBH HB1 HH1).
Qed.

(** X12. Inputs of another width than [d_model]: when the query's last
    axis differs from [h * d_k], [forward] ends in the [RuntimeError] of
    the first linear layer, whatever key and value come with it, with no
    mask or a mask of shape (a, seq, seq), and the object is left as it
    was. *)
Theorem MultiHeadAttention_forward_width (query key value : tensor R)
    (mask : option (tensor bool)) (D' a : nat) :
  shape query = [B; S; D'] -> D' <> (H * K)%nat ->
  (forall mk, mask = Some mk -> shape mk = [a; S; S]) ->
  let self := MultiHeadAttention_built H K lin VNone drop in
  MultiHeadAttention_forward draw self query key value mask
  = (self, Raise (RuntimeError "mat1 and mat2 shapes cannot be multiplied")).
Proof.
  intros Hq Hne Hm. cbv zeta. unfold MultiHeadAttention_forward, MultiHeadAttention_heads, first_dim.
  assert (Hu : match mask with
               | Some m => _ ← unsqueeze m 1; Ok tt
               | None => Ok tt
               end = Ok tt).
  { destruct mask as [mk|]; [|reflexivity]. unfold unsqueeze.
    rewrite (Hm mk eq_refl). reflexivity. }
  rewrite Hu, Hq. cbn [mbind result_bind].
  destruct (MultiHeadAttention_object_attrs (Z.of_nat H) (Z.of_nat K) [lin; lin; lin; lin] VNone drop)
    as (_ & _ & Hl & _).
  change (MultiHeadAttention_object _ _ _ _ _)
    with (MultiHeadAttention_built H K lin VNone drop) in Hl.
  rewrite Hl. cbn [mbind result_bind iter zip zip_with mapM].
  rewrite (Linear_width_mismatch draw lin _ _ w b query B S (H * K) D' (H * K) Hlin Hw Hq Hne).
  reflexivity.
Qed.

End Instance.

Lemma MultiHeadAttention_forward_attn_witness :
  let self := MultiHeadAttention_built 1 1 unit_Linear VNone (Dropout_object 0.1 true) in
  let one := mkTensor [1; 1; 1]%nat [1%R] in
  let two := mkTensor [2; 2; 1]%nat [1%R; 2%R; 3%R; 4%R] in
  fst (MultiHeadAttention_forward (fun _ => 0%R) self one one one None) = self
  /\ (exists a,
        getattr (fst (MultiHeadAttention_forward (fun _ => 0%R) self two two two None)) "attn"
        = Ok (VTensor a)
        /\ shape a = [1; 2; 1]%nat).
Proof.
  intros self one two. split.
  - apply (MultiHeadAttention_forward_attn (fun _ => 0%R) 1 1 1 1
             (mkTensor [1; 1]%nat [1%R]) (mkTensor [1%nat] [0%R]) 0.1
             unit_Linear (Dropout_object 0.1 true)
             ltac:(lia) ltac:(lia) ltac:(lia) eq_refl eq_refl eq_refl
             Dropout_object_init one one one eq_refl eq_refl eq_refl).
    lia.
  - destruct (MultiHeadAttention_forward_attn (fun _ => 0%R) 1 1 2 2
                (mkTensor [1; 1]%nat [1%R]) (mkTensor [1%nat] [0%R]) 0.1
                unit_Linear (Dropout_object 0.1 true)
                ltac:(lia) ltac:(lia) ltac:(lia) eq_refl eq_refl eq_refl
                Dropout_object_init two two two eq_refl eq_refl eq_refl)
      as [_ Hb].
    destruct (Hb eq_refl) as (a & _ & Hg & Hs & _).
    exists a. split; [exact Hg|exact Hs].
Defined.

Lemma MultiHeadAttention_forward_mask_witness :
  let w := mkTensor [2; 2]%nat [1%R; 0%R; 0%R; 1%R] in
  let b := mkTensor [2%nat] [0%R; 0%R] in
  let x := mkTensor [3; 1; 2]%nat [1%R; 2%R; 3%R; 4%R; 5%R; 6%R] in
  let causal := mkTensor [1; 1; 1]%nat [true] in
  let per_batch := mkTensor [3; 1; 1]%nat [true; true; true] in
  exists lin,
    Linear_init 2 2 w b = Ok lin
    /\ (exists msg,
          snd (MultiHeadAttention_forward (fun _ => 0%R)
                 (MultiHeadAttention_built 2 1 lin VNone (Dropout_object 0.1 true))
                 x x x (Some causal)) = Raise (ValueError msg))
    /\ MultiHeadAttention_forward (fun _ => 0%R)
         (MultiHeadAttention_built 2 1 lin VNone (Dropout_object 0.1 true))
         x x x (Some per_batch)
       = (MultiHeadAttention_built 2 1 lin VNone (Dropout_object 0.1 true),
          Raise (RuntimeError "shapes cannot be broadcast")).
Proof.
  intros w b x causal per_batch.
  assert (Hl : exists lin, Linear_init 2 2 w b = Ok lin) by (eexists; reflexivity).
  destruct Hl as [lin Hl]. exists lin. split; [exact Hl|]. split.
  - apply (MultiHeadAttention_forward_mask (fun _ => 0%R) 2 1 3 1 w b 0.1 lin
             (Dropout_object 0.1 true)
             ltac:(lia) ltac:(lia) ltac:(lia) Hl eq_refl eq_refl
             Dropout_object_init x x x causal eq_refl eq_refl eq_refl);
      [reflexivity|lia].
  - apply (MultiHeadAttention_forward_mask (fun _ => 0%R) 2 1 3 1 w b 0.1 lin
             (Dropout_object 0.1 true)
             ltac:(lia) ltac:(lia) ltac:(lia) Hl eq_refl eq_refl
             Dropout_object_init x x x per_batch eq_refl eq_refl eq_refl);
      [reflexivity|lia|lia|lia].
Defined.

Lemma MultiHeadAttention_forward_width_witness :
  let self := MultiHeadAttention_built 1 1 unit_Linear VNone (Dropout_object 0.1 true) in
  let wide := mkTensor [1; 1; 2]%nat [1%R; 2%R] in
  MultiHeadAttention_forward (fun _ => 0%R) self wide wide wide None
  = (self, Raise (RuntimeError "mat1 and mat2 shapes cannot be multiplied")).
Proof.
  intros self wide.
  apply (MultiHeadAttention_forward_width (fun _ => 0%R) 1 1 1 1
           (mkTensor [1; 1]%nat [1%R]) (mkTensor [1%nat] [0%R])
           unit_Linear (Dropout_object 0.1 true) eq_refl eq_refl
           wide wide wide None 2 0 eq_refl).
  - lia.
  - intros mk [=].
Defined.

(** ** [forward_mask] at the edge *)

(** X13. [forward_mask] with a negative size raises the [RuntimeError] of
    [torch.ones]; with size 0 it returns the mask of shape (1, 0, 0), which
    has no entry. *)
Theorem forward_mask_edge (n : Z) :
  (n < 0)%Z ->
  forward_mask n = Raise (RuntimeError "Trying to create tensor with negative dimension")
  /\ forward_mask 0 = Ok (mkTensor [1; 0; 0]%nat [])
  /\ (forall idx, tget (mkTensor [1; 0; 0]%nat ([] : list bool)) idx = None).
Proof.
  intros Hn. split; [|split].
  - unfold forward_mask, ones, filled. cbn [forallb].
    replace (0 <=? n)%Z with false by (symmetry; apply Z.leb_gt; exact Hn).
    reflexivity.
  - reflexivity.
  - intros idx. unfold tget. cbn [shape data].
    destruct (in_bounds [1; 0; 0]%nat idx); [apply lookup_nil|reflexivity].
Qed.

Lemma forward_mask_edge_witness :
  forward_mask (-1) = Raise (RuntimeError "Trying to create tensor with negative dimension").
Proof. apply (forward_mask_edge (-1)). lia. Defined.

(** ** [attention]: a mask that hides nothing, and the range of the output *)

Lemma nth_all_false (N r : nat) : nth r (map negb (replicate N true)) false = false.
Proof.
  revert r. induction N as [|N IH]; intros [|r]; cbn; auto.
Qed.

Lemma ravel_bidx_unravel (n m k : nat) :
  (k < n * m)%nat -> ravel [n; m] (bidx [n; m] (unravel [n; m] k)) = k.
Proof.
  intros Hk. assert (Hm : (0 < m)%nat) by nia.
  cbn [unravel numel foldr bidx length Nat.sub drop zip_with ravel].
  rewrite !Nat.mul_1_r, Nat.div_1_r.
  assert (Hd : (k / m < n)%nat) by (apply Nat.Div0.div_lt_upper_bound; lia).
  assert (Hr : (k mod m < m)%nat) by (apply Nat.mod_upper_bound; lia).
  pose proof (Nat.div_mod_eq k m) as E.
  destruct (Nat.eqb_spec n 1) as [->|_]; destruct (Nat.eqb_spec m 1) as [->|_]; nia.
Qed.

Lemma masked_fill_all_true (l : list R) (n m : nat) (v : R) :
  length l = (n * m)%nat ->
  masked_fill (mkTensor [n; m] l) (mask_eq0 (full true [n; m])) v = Ok (mkTensor [n; m] l).
Proof.
  intros Hl. unfold masked_fill, binop, mask_eq0, tmap, full. cbn [shape data].
  rewrite broadcast_shapes_diag. cbn [mbind result_bind]. f_equal. f_equal.
  apply list_eq. intros k. rewrite lookup_map.
  destruct (Nat.lt_ge_cases k (n * m)) as [Hk|Hk].
  - rewrite lookup_seq_lt by (cbn [numel foldr]; lia).
    cbn [fmap option_fmap option_map Nat.add]. unfold expand_get. cbn [shape data].
    rewrite nth_all_false, ravel_bidx_unravel by exact Hk.
    rewrite nth_lookup. destruct (l !! k) eqn:E; [reflexivity|].
    apply lookup_ge_None in E. lia.
  - rewrite lookup_seq_ge by (cbn [numel foldr]; lia).
    symmetry. apply lookup_ge_None. lia.
Qed.

(** X14. A mask that hides nothing changes nothing: with the n-by-m mask
    whose entries are all true, the weights and the output of [attention]
    are those of the call without a mask. *)
Theorem attention_mask_all_true (draw : nat -> R) (query key value : tensor R)
    (dropout : option pyobj) (n m d : nat) :
  shape query = [n; d] -> shape key = [m; d] ->
  attention_weights query key (Some (full true [n; m])) = attention_weights query key None
  /\ attention draw query key value (Some (full true [n; m])) dropout
     = attention draw query key value None dropout.
Proof.
  intros Hq Hk.
  assert (H : attention_weights query key (Some (full true [n; m]))
              = attention_weights query key None).
  { unfold attention_weights.
    destruct (attention_scores_matrix query key n m d Hq Hk) as (l & -> & Hl).
    cbn [mbind result_bind]. unfold mask_fill_value.
    now rewrite (masked_fill_all_true l n m _ Hl). }
  split; [exact H|]. unfold attention. now rewrite H.
Qed.

Lemma attention_mask_all_true_witness :
  let query := mkTensor [1; 1]%nat [1%R] in
  let key := mkTensor [2; 1]%nat [1%R; 2%R] in
  attention_weights query key (Some (mkTensor [1; 2]%nat [true; true]))
  = attention_weights query key None.
Proof.
  intros query key.
  apply (attention_mask_all_true (fun _ => 0%R) query key key None 1 2 1 eq_refl eq_refl).
Defined.





